(** * SSL Watcher: certificate inspection, notification ledger, scheduler

    A shallow embedding of [main.py].  The two module-level globals
    [domains] and [notifications_sent] become the fields of an explicit
    [State]; every function that reads or writes them takes the state and
    returns the new one.  What lies outside the program (the TLS peer, the
    clock, [strptime], the recipients file, the SMTP server, reportlab) is
    collected in an [Env] record that the functions take as an argument.
    Python exceptions are values of [result]; a [try]/[except Exception]
    block is a [match] on such a value. *)

From Stdlib Require Import ZArith String Ascii List Bool Lia.
From Stdlib Require Import DecimalString Sorted Permutation.
From stdpp Require Import base option list gmap strings.

Open Scope string_scope.
Open Scope Z_scope.
Open Scope list_scope.

(** ** Python string methods used by the program

    A Python [str] is modelled as a Rocq [string]: a sequence of code
    points below 256. *)
Module PyStr.

(** [s.startswith(p)] *)
Fixpoint startswith (p s : string) : bool :=
  match p, s with
  | EmptyString, _ => true
  | String _ _, EmptyString => false
  | String a p', String b s' => Ascii.eqb a b && startswith p' s'
  end.

(** [c in s] for a single character [c] *)
Fixpoint contains_char (c : ascii) (s : string) : bool :=
  match s with
  | EmptyString => false
  | String b s' => Ascii.eqb c b || contains_char c s'
  end.

(** [sub in s] *)
Fixpoint contains (sub s : string) : bool :=
  startswith sub s ||
  match s with
  | EmptyString => false
  | String _ s' => contains sub s'
  end.

(** The scan of [s.replace(old, new)] for a non-empty [old]: leftmost
    occurrences, not overlapping.  [skip] counts the characters of a
    matched occurrence that are still to be dropped. *)
Fixpoint replace_from (old new : string) (skip : nat) (s : string) : string :=
  match s with
  | EmptyString => EmptyString
  | String c s' =>
      match skip with
      | S k => replace_from old new k s'
      | O =>
          if startswith old s
          then new +:+ replace_from old new (String.length old - 1) s'
          else String c (replace_from old new 0 s')
      end
  end.

(** With an empty [old], Python puts [new] before every character and at
    the end. *)
Fixpoint intersperse (new s : string) : string :=
  match s with
  | EmptyString => new
  | String c s' => new +:+ String c (intersperse new s')
  end.

(** [s.replace(old, new)] *)
Definition replace (old new s : string) : string :=
  match old with
  | EmptyString => intersperse new s
  | String _ _ => replace_from old new 0 s
  end.

(** [s.split(sep)] for a one-character separator: the pieces between
    the separators, in order; never the empty list. *)
Fixpoint split (sep : ascii) (s : string) : list string :=
  match s with
  | EmptyString => [EmptyString]
  | String c s' =>
      if Ascii.eqb c sep then EmptyString :: split sep s'
      else match split sep s' with
           | piece :: pieces => String c piece :: pieces
           | [] => [String c EmptyString]
           end
  end.

(** [str.isspace] on one code point below 256: TAB..CR, FS..US, space,
    NEL and the no-break space. *)
Definition isspace (c : ascii) : bool :=
  let n := nat_of_ascii c in
  ((9 <=? n) && (n <=? 13) || (28 <=? n) && (n <=? 32)
   || (n =? 133) || (n =? 160))%nat.

Fixpoint lstrip (s : string) : string :=
  match s with
  | EmptyString => EmptyString
  | String c s' => if isspace c then lstrip s' else s
  end.

Fixpoint rstrip (s : string) : string :=
  match s with
  | EmptyString => EmptyString
  | String c s' =>
      match rstrip s' with
      | EmptyString => if isspace c then EmptyString else String c EmptyString
      | r => String c r
      end
  end.

(** [s.strip()] *)
Definition strip (s : string) : string := rstrip (lstrip s).

(** [str.lower] on one code point below 256: the letters A-Z and the
    capital letters of Latin-1 (all of 192-222 but the multiplication
    sign) move up by 32. *)
Definition lower_char (c : ascii) : ascii :=
  let n := nat_of_ascii c in
  if ((65 <=? n) && (n <=? 90)
      || (192 <=? n) && (n <=? 222) && negb (n =? 215))%nat
  then ascii_of_nat (n + 32)
  else c.

(** [s.lower()] *)
Fixpoint lower (s : string) : string :=
  match s with
  | EmptyString => EmptyString
  | String c s' => String (lower_char c) (lower s')
  end.

(** [s[:n]] *)
Fixpoint slice_to (n : nat) (s : string) : string :=
  match n, s with
  | S n', String c s' => String c (slice_to n' s')
  | _, _ => EmptyString
  end.

(** [str(n)] for an integer *)
Definition str_of_int (n : Z) : string :=
  NilEmpty.string_of_int (Z.to_int n).

End PyStr.

(** ** Line 63: cleaning the domain *)

(** [domain.replace('http://', '').replace('https://', '')
          .replace('www.', '').split('/')[0]].
    [split] never returns the empty list (lemma [split_not_nil]), so the
    index [0] is always in range and [hd] has no use for its default. *)
Definition clean_domain_of (domain : string) : string :=
  hd EmptyString
     (PyStr.split "/"
        (PyStr.replace "www." ""
           (PyStr.replace "https://" ""
              (PyStr.replace "http://" "" domain)))).

(** What may follow the host in a URL: nothing, or a path from its slash on. *)
Definition path_like (t : string) : bool :=
  match t with
  | EmptyString => true
  | String c _ => Ascii.eqb c "/"
  end.

(** The normalisation as the specification words it: strip a leading
    scheme, then a leading [www.] label, then the path suffix.  Nothing
    else is touched. *)
Module SpecNormalize.

Definition strip_prefix (p s : string) : option string :=
  if PyStr.startswith p s
  then Some (String.substring (String.length p)
                              (String.length s - String.length p) s)
  else None.

Definition is_alpha (c : ascii) : bool :=
  let n := nat_of_ascii c in
  ((65 <=? n) && (n <=? 90) || (97 <=? n) && (n <=? 122))%nat.

(** The characters of a URI scheme after its first letter:
    letters, digits, [+], [-] and [.]. *)
Definition is_scheme_char (c : ascii) : bool :=
  let n := nat_of_ascii c in
  (is_alpha c || (48 <=? n) && (n <=? 57)
   || (n =? 43) || (n =? 45) || (n =? 46))%nat.

Fixpoint after_scheme_chars (s : string) : string :=
  match s with
  | EmptyString => EmptyString
  | String c s' => if is_scheme_char c then after_scheme_chars s' else s
  end.

(** A leading [scheme://], for any scheme name. *)
Definition strip_leading_scheme (s : string) : string :=
  match s with
  | EmptyString => EmptyString
  | String c s' =>
      if is_alpha c
      then match strip_prefix "://" (after_scheme_chars s') with
           | Some r => r
           | None => s
           end
      else s
  end.

Definition strip_leading_www (s : string) : string :=
  match strip_prefix "www." s with
  | Some r => r
  | None => s
  end.

Fixpoint strip_path (s : string) : string :=
  match s with
  | EmptyString => EmptyString
  | String c s' => if Ascii.eqb c "/" then EmptyString else String c (strip_path s')
  end.

Definition normalize (s : string) : string :=
  strip_path (strip_leading_www (strip_leading_scheme s)).

End SpecNormalize.

(** ** Exceptions *)

(** A raised exception: its class name and the text [str(e)]. *)
Record Exn := { exn_class : string; exn_str : string }.

Inductive result (A : Type) : Type :=
| Ok (a : A)
| Raise (e : Exn).
Arguments Ok {A} a.
Arguments Raise {A} e.

#[global] Instance result_ret : MRet result := fun A a => Ok a.

#[global] Instance result_bind : MBind result := fun A B k c =>
  match c with
  | Ok a => k a
  | Raise e => Raise e
  end.

(** [str(KeyError(key))] is the [repr] of the key. *)
Definition KeyError (key : string) : Exn :=
  {| exn_class := "KeyError"; exn_str := "'" +:+ key +:+ "'" |}.

Definition IndexError : Exn :=
  {| exn_class := "IndexError"; exn_str := "tuple index out of range" |}.

(** [None <= 30] *)
Definition TypeError_le : Exn :=
  {| exn_class := "TypeError";
     exn_str := "'<=' not supported between instances of 'NoneType' and 'int'" |}.

(** [d[key]] on a dictionary entry that may be missing. *)
Definition getitem {A : Type} (key : string) (slot : option A) : result A :=
  match slot with
  | Some v => Ok v
  | None => Raise (KeyError key)
  end.

(** ** Data *)

(** The three values the ['status'] key takes. *)
Inductive Status := valid | expired | error.

Definition Status_eqb (a b : Status) : bool :=
  match a, b with
  | valid, valid | expired, expired | error, error => true
  | _, _ => false
  end.

(** The dictionary of [getpeercert()], as far as the program reads it.
    [None] is a missing key.  The issuer is a tuple of relative
    distinguished names, each a tuple of (name, value) pairs. *)
Record Cert := {
  cert_notAfter : option string;
  cert_notBefore : option string;
  cert_issuer : option (list (list (string * string)))
}.

(** The dictionary [get_ssl_info] returns.  The success shape has every
    key; the failure shape has only ['domain'], ['clean_domain'],
    ['error'], ['status'] and ['days_until_expiry'] (set to [None]).  A key
    that is missing, or present with the value [None], is [None] here. *)
Record SslInfo := {
  domain : string;
  clean_domain : string;
  issuer : option (gmap string string);
  valid_from : option string;
  valid_to : option string;
  expiry_date : option string;
  days_until_expiry : option Z;
  status : Status;
  error_text : option string
}.

(** The alert e-mail, by the fields that vary. *)
Record Message := {
  msg_to : list string;
  msg_domain : string;
  msg_days_left : option Z;
  msg_expiry_date : string;
  msg_issuer : string;
  msg_attachment : option string
}.

(** ** The world outside the program *)
Record Env := {
  (** [create_default_context], [create_connection((host, 443), timeout=10)],
      [wrap_socket(server_hostname=host)] and [getpeercert()] *)
  peer_cert : string -> result Cert;
  (** [datetime.strptime(_, '%b %d %H:%M:%S %Y %Z')], in microseconds *)
  strptime : string -> result Z;
  (** [datetime.now()], in microseconds *)
  now : Z;
  (** [_.strftime('%Y-%m-%d')] *)
  strftime_ymd : Z -> string;
  (** [load_emails()]: the recipients file, [[]] when it cannot be read *)
  load_emails : list string;
  (** reportlab building the document from the snapshots; [None] when
      anything in [generate_pdf_report] raises *)
  render_report : list SslInfo -> option string;
  (** the SMTP session: [starttls], [login], [sendmail] *)
  smtp_send : Message -> result unit
}.

(** What [send_email_notification] prints before it returns. *)
Inductive SendLog :=
| NoRecipients
| EmailSent (recipients : nat) (d : string)
| SendFailed (e : Exn).

(** Calls that leave a mark outside the two globals. *)
Inductive Event :=
| EvInspect (d : string)
| EvReport
| EvNotify (info : SslInfo) (pdf : option string) (log : SendLog)
| EvSleep (seconds : Z).

(** The globals of lines 36 and 37.  A ledger value is whatever
    ['days_until_expiry'] held when it was stored. *)
Record State := {
  domains : list string;
  notifications_sent : gmap string (option Z)
}.

Definition initial_state : State :=
  {| domains := []; notifications_sent := ∅ |}.

(** ** [get_ssl_info], lines 59-90 *)

(** [dict(x[0] for x in cert['issuer'])]: the first pair of every name,
    a later pair replacing an earlier one with the same key. *)
Fixpoint issuer_dict (names : list (list (string * string)))
                     (acc : gmap string string) : result (gmap string string) :=
  match names with
  | [] => Ok acc
  | [] :: _ => Raise IndexError
  | ((k, v) :: _) :: rest => issuer_dict rest (<[k := v]> acc)
  end.

Definition MICROSECONDS_PER_DAY : Z := 86400 * 1000000.

(** [(expiry_date - datetime.now()).days]: the whole days of the
    difference, rounded towards minus infinity. *)
Definition timedelta_days (expiry_date now_ : Z) : Z :=
  (expiry_date - now_) / MICROSECONDS_PER_DAY.

(** The body of the [try], lines 63-82. *)
Definition get_ssl_info_try (env : Env) (d : string) : result SslInfo :=
  let clean := clean_domain_of d in
  cert ← peer_cert env clean;
  not_after ← getitem "notAfter" (cert_notAfter cert);
  expiry ← strptime env not_after;
  let days := timedelta_days expiry (now env) in
  names ← getitem "issuer" (cert_issuer cert);
  iss ← issuer_dict names ∅;
  not_before ← getitem "notBefore" (cert_notBefore cert);
  Ok {| domain := d;
        clean_domain := clean;
        issuer := Some iss;
        valid_from := Some not_before;
        valid_to := Some not_after;
        expiry_date := Some (strftime_ymd env expiry);
        days_until_expiry := Some days;
        status := if 0 <? days then valid else expired;
        error_text := None |}.

(** The [except Exception] branch, lines 84-90. *)
Definition error_info (d : string) (e : Exn) : SslInfo :=
  {| domain := d;
     clean_domain := d;
     issuer := None;
     valid_from := None;
     valid_to := None;
     expiry_date := None;
     days_until_expiry := None;
     status := error;
     error_text := Some (exn_str e) |}.

Definition get_ssl_info (env : Env) (d : string) : SslInfo :=
  match get_ssl_info_try env d with
  | Ok info => info
  | Raise e => error_info d e
  end.

(** ** [generate_pdf_report], lines 92-178

    Line 101 inspects every domain again; the rest is the renderer.  The
    whole body sits in a [try] whose handler returns [None]. *)
Definition generate_pdf_report (env : Env) (ds : list string) : option string :=
  render_report env (map (get_ssl_info env) ds).

(** ** [send_email_notification], lines 180-244 *)

(** [ssl_info['issuer'].get('organizationName', 'Unknown')] *)
Definition organization (iss : gmap string string) : string :=
  default "Unknown" (iss !! "organizationName").

(** The body of the [try], lines 183-241. *)
Definition send_email_notification_try (env : Env) (ssl_info : SslInfo)
                                       (pdf_buffer : option string) : result SendLog :=
  let days_left := days_until_expiry ssl_info in
  let emails := load_emails env in
  match emails with
  | [] => Ok NoRecipients
  | _ :: _ =>
      expiry ← getitem "expiry_date" (expiry_date ssl_info);
      iss ← getitem "issuer" (issuer ssl_info);
      _ ← smtp_send env {| msg_to := emails;
                           msg_domain := domain ssl_info;
                           msg_days_left := days_left;
                           msg_expiry_date := expiry;
                           msg_issuer := organization iss;
                           msg_attachment := pdf_buffer |};
      Ok (EmailSent (length emails) (domain ssl_info))
  end.

(** Lines 243-244 print the exception and drop it: the function returns
    [None] on every path. *)
Definition send_email_notification (env : Env) (ssl_info : SslInfo)
                                   (pdf_buffer : option string) : SendLog :=
  match send_email_notification_try env ssl_info pdf_buffer with
  | Ok log => log
  | Raise e => SendFailed e
  end.

(** ** The notification decision and the ledger *)

(** [info['days_until_expiry'] <= 30]; [None <= 30] is a [TypeError]. *)
Definition days_le (days : option Z) (bound : Z) : result bool :=
  match days with
  | Some n => Ok (n <=? bound)
  | None => Raise TypeError_le
  end.

(** Line 252: [info['status'] == 'valid' and info['days_until_expiry'] <= 30].
    [and] does not evaluate its right operand when the left one is false. *)
Definition alert_condition (info : SslInfo) : result bool :=
  if Status_eqb (status info) valid
  then days_le (days_until_expiry info) 30
  else Ok false.

(** Line 253: [domain not in notifications_sent or
    notifications_sent[domain] != info['days_until_expiry']]. *)
Definition not_yet_notified (d : string) (info : SslInfo)
                            (ledger : gmap string (option Z)) : bool :=
  match ledger !! d with
  | None => true
  | Some stored => negb (bool_decide (stored = days_until_expiry info))
  end.

(** Lines 252-253 together: the two nested [if]s guard the send. *)
Definition should_notify (d : string) (info : SslInfo)
                         (ledger : gmap string (option Z)) : result bool :=
  alert ← alert_condition info;
  Ok (alert && not_yet_notified d info ledger).

(** Line 257 (and 304): [notifications_sent[domain] = info['days_until_expiry']]. *)
Definition recordSent (d : string) (n : option Z)
                      (ledger : gmap string (option Z)) : gmap string (option Z) :=
  <[d := n]> ledger.

(** Lines 313-314: [if domain in notifications_sent: del notifications_sent[domain]]. *)
Definition purge (d : string) (ledger : gmap string (option Z)) : gmap string (option Z) :=
  delete d ledger.

(** ** [check_domains], lines 246-257 *)

(** One turn of the [for] loop.  [all] is the global [domains], which
    [generate_pdf_report] reads. *)
Definition check_domain (env : Env) (all : list string) (d : string)
                        (ledger : gmap string (option Z))
  : result (gmap string (option Z) * list Event) :=
  let info := get_ssl_info env d in
  go ← should_notify d info ledger;
  if go : bool then
    let pdf_buffer := generate_pdf_report env all in
    let log := send_email_notification env info pdf_buffer in
    Ok (recordSent d (days_until_expiry info) ledger,
        [EvInspect d; EvReport; EvNotify info pdf_buffer log])
  else Ok (ledger, [EvInspect d]).

Fixpoint check_loop (env : Env) (all todo : list string)
                    (ledger : gmap string (option Z))
  : result (gmap string (option Z) * list Event) :=
  match todo with
  | [] => Ok (ledger, [])
  | d :: rest =>
      '(ledger1, evs1) ← check_domain env all d ledger;
      '(ledger2, evs2) ← check_loop env all rest ledger1;
      Ok (ledger2, evs1 ++ evs2)
  end.

Definition check_domains (env : Env) (st : State) : result (State * list Event) :=
  '(ledger, evs) ← check_loop env (domains st) (domains st) (notifications_sent st);
  Ok ({| domains := domains st; notifications_sent := ledger |}, evs).

(** ** [background_checker], lines 259-264 *)

Definition CHECK_INTERVAL : Z := 3600.

(** The body of [while True]: the check when [domains] is not empty, then
    [time.sleep(3600)]. *)
Definition background_checker_body (env : Env) (st : State)
  : result (State * list Event) :=
  '(st1, evs) ← match domains st with
                | [] => Ok (st, [])
                | _ :: _ => check_domains env st
                end;
  Ok (st1, evs ++ [EvSleep CHECK_INTERVAL]).

(** The first [n] turns of the loop; [world k] is the world during turn
    [k].  A [Raise] is the thread dying. *)
Fixpoint background_checker (n : nat) (world : nat -> Env) (k : nat) (st : State)
  : result (State * list Event) :=
  match n with
  | O => Ok (st, [])
  | S n' =>
      '(st1, evs1) ← background_checker_body (world k) st;
      '(st2, evs2) ← background_checker n' world (S k) st1;
      Ok (st2, evs1 ++ evs2)
  end.

(** ** The request handlers *)

(** [request.form.get('domain', '').strip()] *)
Definition form_domain (field : option string) : string :=
  PyStr.strip (default EmptyString field).

(** The body a handler hands to [jsonify]. *)
Inductive Response :=
| RespDomains (ds : list string)
| RespResults (results : list SslInfo).

(** [domain in domains] *)
Definition in_domains (d : string) (ds : list string) : bool :=
  bool_decide (d ∈ ds).

(** [domains.remove(domain)]: the first occurrence only. *)
Fixpoint list_remove (d : string) (ds : list string) : list string :=
  match ds with
  | [] => []
  | x :: rest => if bool_decide (x = d) then rest else x :: list_remove d rest
  end.

(** [add_domain], lines 293-305.  [info.get(key, default)] reads a key that
    is always there, so the defaults never apply. *)
Definition add_domain (env : Env) (field : option string) (st : State)
  : result (State * Response * list Event) :=
  let d := form_domain field in
  if negb (String.eqb d EmptyString) && negb (in_domains d (domains st)) then
    let ds := domains st ++ [d] in
    let info := get_ssl_info env d in
    alert ← alert_condition info;
    if alert : bool then
      let pdf_buffer := generate_pdf_report env ds in
      let log := send_email_notification env info pdf_buffer in
      Ok ({| domains := ds;
             notifications_sent :=
               recordSent d (days_until_expiry info) (notifications_sent st) |},
          RespDomains ds,
          [EvInspect d; EvReport; EvNotify info pdf_buffer log])
    else
      Ok ({| domains := ds; notifications_sent := notifications_sent st |},
          RespDomains ds, [EvInspect d])
  else Ok (st, RespDomains (domains st), []).

(** [remove_domain], lines 307-315. *)
Definition remove_domain (field : option string) (st : State)
  : result (State * Response * list Event) :=
  let d := form_domain field in
  if in_domains d (domains st) then
    let ds := list_remove d (domains st) in
    Ok ({| domains := ds;
           notifications_sent :=
             match notifications_sent st !! d with
             | Some _ => purge d (notifications_sent st)
             | None => notifications_sent st
             end |},
        RespDomains ds, [])
  else Ok (st, RespDomains (domains st), []).

(** [check_now], lines 337-343. *)
Definition check_now (env : Env) (st : State)
  : result (State * Response * list Event) :=
  Ok (st, RespResults (map (get_ssl_info env) (domains st)),
      map EvInspect (domains st)).

(** ** Runs of the program, one whole operation at a time *)

Inductive Op :=
| OpAdd (env : Env) (field : option string)
| OpRemove (field : option string)
| OpCheckNow (env : Env)
| OpCheckPass (env : Env).

Definition run_op (op : Op) (st : State) : result (State * list Event) :=
  match op with
  | OpAdd env field => '(st1, _, evs) ← add_domain env field st; Ok (st1, evs)
  | OpRemove field => '(st1, _, evs) ← remove_domain field st; Ok (st1, evs)
  | OpCheckNow env => '(st1, _, evs) ← check_now env st; Ok (st1, evs)
  | OpCheckPass env => check_domains env st
  end.

Inductive reachable : State -> Prop :=
| reachable_initial : reachable initial_state
| reachable_step (op : Op) (st st1 : State) (evs : list Event) :
    reachable st -> run_op op st = Ok (st1, evs) -> reachable st1.

(** The ledger knows no name that the registry does not. *)
Definition ledger_within_registry (st : State) : Prop :=
  forall d : string, is_Some (notifications_sent st !! d) -> d ∈ domains st.

(** Line 252 on the snapshot of [d], as a plain boolean. *)
Definition alerting (env : Env) (d : string) : bool :=
  match alert_condition (get_ssl_info env d) with
  | Ok true => true
  | _ => false
  end.

(** ** Reading a trace *)

(** The domains inspected, in order. *)
Definition inspected (evs : list Event) : list string :=
  omap (fun ev => match ev with EvInspect d => Some d | _ => None end) evs.

(** The sleeps, in order. *)
Definition sleeps (evs : list Event) : list Z :=
  omap (fun ev => match ev with EvSleep s => Some s | _ => None end) evs.

(** The send attempts, in order, by domain. *)
Definition notified (evs : list Event) : list string :=
  omap (fun ev => match ev with EvNotify info _ _ => Some (domain info) | _ => None end) evs.

Definition is_inspect (ev : Event) : bool :=
  match ev with EvInspect _ => true | _ => false end.

(** Every exception the world raises has a text. *)
Definition world_errors_have_text (env : Env) : Prop :=
  (forall (host : string) (e : Exn), peer_cert env host = Raise e -> exn_str e <> EmptyString)
  /\ (forall (stamp : string) (e : Exn), strptime env stamp = Raise e -> exn_str e <> EmptyString).

(** ** Sample worlds *)

Definition sample_cert : Cert :=
  {| cert_notAfter := Some "Jun  1 12:00:00 2030 GMT";
     cert_notBefore := Some "Mar  3 12:00:00 2030 GMT";
     cert_issuer := Some [ [("countryName", "US")];
                           [("organizationName", "Let's Encrypt")];
                           [("commonName", "R11")] ] |}.

Definition smtp_refused : Exn :=
  {| exn_class := "SMTPAuthenticationError";
     exn_str := "(535, b'5.7.8 Username and Password not accepted')" |}.

(** Every host presents [sample_cert]; its end lies [days] whole days and
    one second after now.  The mail server accepts or refuses. *)
Definition world_days (days : Z) (smtp_up : bool) : Env :=
  {| peer_cert := fun _ => Ok sample_cert;
     strptime := fun _ => Ok (days * MICROSECONDS_PER_DAY + 1000000);
     now := 0;
     strftime_ymd := fun _ => "2030-06-01";
     load_emails := ["ops@example.com"];
     render_report := fun _ => Some "%PDF-1.4";
     smtp_send := fun _ => if smtp_up then Ok tt else Raise smtp_refused |}.

Definition timed_out : Exn :=
  {| exn_class := "TimeoutError"; exn_str := "timed out" |}.

(** No host answers. *)
Definition world_unreachable : Env :=
  {| peer_cert := fun _ => Raise timed_out;
     strptime := fun _ => Ok 0;
     now := 0;
     strftime_ymd := fun _ => "1970-01-01";
     load_emails := ["ops@example.com"];
     render_report := fun _ => None;
     smtp_send := fun _ => Ok tt |}.

Definition watching_a : State :=
  {| domains := ["a.example"]; notifications_sent := ∅ |}.

Definition notified_a_at_10 : State :=
  {| domains := ["a.example"];
     notifications_sent := {["a.example" := Some 10]} |}.

(** ** [load_emails] and [save_emails], lines 39-57; the two e-mail handlers *)
Module Emails.

(** [emails.json] as the program meets it: absent, failing to open or to
    parse as an object, or an object with or without the member
    ['emails'].  The member is taken to be a list of strings, which is
    all [save_emails] writes. *)
Inductive File :=
| Missing
| Unreadable (e : Exn)
| Object (emails : option (list string)).

(** How [open(_, 'w')] and [json.dump] go. *)
Inductive Write :=
| Written
| OpenFailed (e : Exn)
| DumpFailed (e : Exn).

(** Lines 39-49.  Every exception ends in [[]]. *)
Definition load_emails (f : File) : list string :=
  match f with
  | Missing => []
  | Unreadable _ => []
  | Object None => []
  | Object (Some l) => l
  end.

(** Lines 51-57.  A failure is printed and dropped.  Opening for writing
    empties the file, so a dump that fails leaves it unparsable. *)
Definition save_emails (w : Write) (emails : list string) (f : File) : File :=
  match w with
  | Written => Object (Some emails)
  | OpenFailed _ => f
  | DumpFailed e => Unreadable e
  end.

(** [request.form.get('email', '').strip().lower()] *)
Definition form_email (field : option string) : string :=
  PyStr.lower (PyStr.strip (default EmptyString field)).

(** [add_email], lines 317-325: the file afterwards and the list in the
    response. *)
Definition add_email (w : Write) (field : option string) (f : File)
  : File * list string :=
  let email := form_email field in
  let emails := load_emails f in
  if negb (String.eqb email EmptyString) && negb (bool_decide (email ∈ emails))
  then (save_emails w (emails ++ [email]) f, emails ++ [email])
  else (f, emails).

(** [remove_email], lines 327-335. *)
Definition remove_email (w : Write) (field : option string) (f : File)
  : File * list string :=
  let email := form_email field in
  let emails := load_emails f in
  if bool_decide (email ∈ emails)
  then (save_emails w (list_remove email emails) f, list_remove email emails)
  else (f, emails).

End Emails.

(** ** [index], lines 270-291 *)

(** Line 278: [x.get('days_until_expiry', 999) if x.get('days_until_expiry')
    else 999].  [None] and [0] are both false. *)
Definition sort_key (x : SslInfo) : Z :=
  match days_until_expiry x with
  | Some n => if n =? 0 then 999 else n
  | None => 999
  end.

(** [list.sort(key=...)] is a stable sort; insertion from the right, each
    element in front of the first one whose key is not smaller, is one. *)
Fixpoint insert_by_key (x : SslInfo) (l : list SslInfo) : list SslInfo :=
  match l with
  | [] => [x]
  | y :: rest =>
      if sort_key x <=? sort_key y then x :: y :: rest
      else y :: insert_by_key x rest
  end.

Definition sort_by_key (l : list SslInfo) : list SslInfo :=
  foldr insert_by_key [] l.

(** [sum(1 for x in l if x.get('status') == s)] *)
Definition count_status (s : Status) (l : list SslInfo) : nat :=
  length (filter (fun x => Status_eqb (status x) s = true) l).

(** [sum(1 for x in l if x.get('days_until_expiry', 999) <= 30)].  The key
    is in every snapshot, so the default never applies and a [None]
    reaches the comparison. *)
Fixpoint count_expiring (l : list SslInfo) : result nat :=
  match l with
  | [] => Ok O
  | x :: rest =>
      b ← days_le (days_until_expiry x) 30;
      n ← count_expiring rest;
      Ok (if b : bool then S n else n)
  end.

Record Stats := {
  stat_total : nat;
  stat_valid : nat;
  stat_expiring : nat;
  stat_errors : nat
}.

(** Lines 281-286, in the order the entries are evaluated. *)
Definition dashboard_stats (l : list SslInfo) : result Stats :=
  expiring ← count_expiring l;
  Ok {| stat_total := length l;
        stat_valid := count_status valid l;
        stat_expiring := expiring;
        stat_errors := count_status error l |}.

(** What [index] hands to [render_template]. *)
Record Dashboard := {
  dash_domains : list string;
  dash_ssl_info : list SslInfo;
  dash_stats : Stats;
  dash_emails : list string
}.

Definition index (env : Env) (st : State) : result Dashboard :=
  let ssl_info_list := sort_by_key (map (get_ssl_info env) (domains st)) in
  stats ← dashboard_stats ssl_info_list;
  Ok {| dash_domains := domains st;
        dash_ssl_info := ssl_info_list;
        dash_stats := stats;
        dash_emails := load_emails env |}.

(** ** The body of [generate_pdf_report], lines 94-174 *)

(** [None > 0] *)
Definition TypeError_gt : Exn :=
  {| exn_class := "TypeError";
     exn_str := "'>' not supported between instances of 'NoneType' and 'int'" |}.

Definition days_gt (days : option Z) (bound : Z) : result bool :=
  match days with
  | Some n => Ok (bound <? n)
  | None => Raise TypeError_gt
  end.

(** [str(info.get('days_until_expiry', 'N/A'))] *)
Definition days_cell (days : option Z) : string :=
  match days with
  | Some n => PyStr.str_of_int n
  | None => "None"
  end.

(** Lines 123-140: one row of the table.  An error text that is [None] or
    empty is false. *)
Definition table_row (info : SslInfo) : result (list string) :=
  let domain_cell :=
    PyStr.slice_to 20 (domain info)
    +:+ (if (20 <? String.length (domain info))%nat then "..." else "") in
  match error_text info with
  | Some (String _ _) => Ok [domain_cell; "Error"; "N/A"; "N/A"; "N/A"]
  | _ =>
      alive ← days_gt (days_until_expiry info) 0;
      Ok [domain_cell;
          if alive : bool then "Valid" else "Expired";
          days_cell (days_until_expiry info);
          default "N/A" (expiry_date info);
          PyStr.slice_to 20 (organization (default ∅ (issuer info))) +:+ "..."]
  end.

Fixpoint table_rows (l : list SslInfo) : result (list (list string)) :=
  match l with
  | [] => Ok []
  | info :: rest =>
      row ← table_row info;
      rows ← table_rows rest;
      Ok (row :: rows)
  end.

Definition TABLE_HEADER : list string :=
  ["Domain"; "Status"; "Days Left"; "Expiry Date"; "Issuer"].

(** What reaches reportlab: the table and the three counts of the
    summary line. *)
Record ReportData := {
  table_data : list (list string);
  summary_valid : nat;
  summary_expiring : nat;
  summary_errors : nat
}.

(** Lines 119-163 on the snapshots of line 101. *)
Definition report_data (l : list SslInfo) : result ReportData :=
  rows ← table_rows l;
  expiring ← count_expiring l;
  Ok {| table_data := TABLE_HEADER :: rows;
        summary_valid := count_status valid l;
        summary_expiring := expiring;
        summary_errors := count_status error l |}.

(** The whole body; [build] is reportlab (its import, the layout and
    [doc.build]). *)
Definition generate_pdf_report_try (build : ReportData -> result string)
                                   (l : list SslInfo) : result string :=
  data ← report_data l;
  build data.

(** Lines 176-178: any exception gives [None]. *)
Definition generate_pdf_report_from (build : ReportData -> result string)
                                    (l : list SslInfo) : option string :=
  match generate_pdf_report_try build l with
  | Ok buffer => Some buffer
  | Raise _ => None
  end.

(** A world whose renderer is the code of [generate_pdf_report] around
    some reportlab. *)
Definition world_renders_with (build : ReportData -> result string)
                              (env : Env) : Prop :=
  forall l : list SslInfo, render_report env l = generate_pdf_report_from build l.

(** [export_pdf], lines 345-356: the document, or the error with status
    500. *)
Definition export_pdf (env : Env) (st : State) : string + Z :=
  match generate_pdf_report env (domains st) with
  | Some buffer => inl buffer
  | None => inr 500
  end.

(** ** More sample worlds *)

(** [a.example] presents [sample_cert] with ten days left; no other host
    answers. *)
Definition world_one_down : Env :=
  {| peer_cert := fun host => if String.eqb host "a.example"
                              then Ok sample_cert else Raise timed_out;
     strptime := fun _ => Ok (10 * MICROSECONDS_PER_DAY + 1000000);
     now := 0;
     strftime_ymd := fun _ => "2030-06-01";
     load_emails := ["ops@example.com"];
     render_report := generate_pdf_report_from (fun _ => Ok "%PDF-1.4");
     smtp_send := fun _ => Ok tt |}.

Definition watching_a_and_b : State :=
  {| domains := ["a.example"; "b.example"]; notifications_sent := ∅ |}.

(** ** Predicates on states *)

(** Lines 252-253 on the snapshot of [d], as a plain boolean. *)
Definition due (env : Env) (ledger : gmap string (option Z)) (d : string) : bool :=
  alerting env d && not_yet_notified d (get_ssl_info env d) ledger.

(** No name twice, none empty, none with white space around it. *)
Definition registry_ok (st : State) : Prop :=
  NoDup (domains st)
  /\ forall d : string, d ∈ domains st -> d <> EmptyString /\ PyStr.strip d = d.

(** Every ledger value is a countdown from 1 to 30. *)
Definition ledger_values_ok (st : State) : Prop :=
  forall (d : string) (v : option Z),
    notifications_sent st !! d = Some v -> exists n : Z, v = Some n /\ 0 < n <= 30.

(** The two shapes a snapshot of [get_ssl_info] has. *)
Definition well_shaped (x : SslInfo) : Prop :=
  (status x = error /\ days_until_expiry x = None)
  \/ (exists n : Z, days_until_expiry x = Some n
                    /\ status x = if 0 <? n then valid else expired).

(** An exception raised without a message: [str(e)] is empty. *)
Definition silent_error : Exn :=
  {| exn_class := "OSError"; exn_str := EmptyString |}.

(** Every connection fails with it. *)
Definition world_silent : Env :=
  {| peer_cert := fun _ => Raise silent_error;
     strptime := fun _ => Ok 0;
     now := 0;
     strftime_ymd := fun _ => "1970-01-01";
     load_emails := ["ops@example.com"];
     render_report := fun _ => None;
     smtp_send := fun _ => Ok tt |}.

(** Twenty hours really left, on a host eight hours behind UTC: the naive
    difference is 28 hours, one whole day, and the status is valid. *)
Definition world_utc_minus_8 : Env :=
  {| peer_cert := fun _ => Ok sample_cert;
     strptime := fun _ => Ok (20 * 3600 * 1000000);
     now := 0 + - (8 * 3600 * 1000000);
     strftime_ymd := fun _ => "2030-06-01";
     load_emails := ["ops@example.com"];
     render_report := fun _ => Some "%PDF-1.4";
     smtp_send := fun _ => Ok tt |}.

(** * Properties *)

(** ** Strings *)

Module PyStrFacts.
Import PyStr.
#[local] Arguments Ascii.eqb : simpl nomatch.

Lemma split_not_nil sep s : split sep s <> [].
Proof.
  destruct s as [|c s]; simpl; [discriminate|].
  destruct (Ascii.eqb c sep); [discriminate|].
  destruct (split sep s); discriminate.
Qed.

Lemma hd_split_host host t :
  contains_char "/" host = false -> path_like t = true ->
  hd EmptyString (split "/" (host +:+ t)) = host.
Proof.
  intros Hh Ht. induction host as [|c host IH]; simpl in *.
  - destruct t as [|c t]; simpl in *; [reflexivity|].
    rewrite Ht. reflexivity.
  - apply orb_false_iff in Hh as [Hc Hh].
    rewrite Ascii.eqb_sym, Hc.
    specialize (IH Hh).
    destruct (split "/" (host +:+ t)) as [|p ps] eqn:E; simpl in *; congruence.
Qed.

(** One more character of a pattern against [h +:+ t]: the host ends and
    the path begins with a slash, or the next character of the host
    decides. *)
Ltac scan h t Ht :=
  destruct h as [|? h]; simpl in *;
  [ destruct t as [|? t]; simpl in *;
    [ reflexivity | apply Ascii.eqb_eq in Ht; subst; reflexivity ]
  | match goal with
    | |- Ascii.eqb ?a ?b && _ = false =>
        destruct (Ascii.eqb_spec a b);
        [ subst; simpl in *; try discriminate | reflexivity ]
    end ].

Lemma no_http_in_host h t c :
  contains_char ":" (String c h) = false -> path_like t = true ->
  startswith "http://" (String c h +:+ t) = false.
Proof.
  intros Hc Ht. simpl in *.
  destruct (Ascii.eqb_spec "h" c); [subst; simpl in *|reflexivity].
  do 4 (scan h t Ht).
Qed.

Lemma no_https_in_host h t c :
  contains_char ":" (String c h) = false -> path_like t = true ->
  startswith "https://" (String c h +:+ t) = false.
Proof.
  intros Hc Ht. simpl in *.
  destruct (Ascii.eqb_spec "h" c); [subst; simpl in *|reflexivity].
  do 5 (scan h t Ht).
Qed.

Lemma no_www_in_host h t c :
  startswith "www." (String c h) = false -> path_like t = true ->
  startswith "www." (String c h +:+ t) = false.
Proof.
  intros Hc Ht. simpl in *.
  destruct (Ascii.eqb_spec "w" c); [subst; simpl in *|reflexivity].
  do 3 (scan h t Ht).
Qed.

(** One step of [replace_from] at the first character of the host. *)
Ltac scan_head c host t :=
  change (String c host +:+ t) with (String c (host +:+ t));
  cbn [replace_from];
  change (String c (host +:+ t)) with (String c host +:+ t) at 1.

Lemma replace_http_host host t :
  contains_char ":" host = false -> path_like t = true ->
  replace_from "http://" "" 0 (host +:+ t)
  = host +:+ replace_from "http://" "" 0 t.
Proof.
  intros Hh Ht. induction host as [|c host IH]; [reflexivity|].
  scan_head c host t.
  rewrite no_http_in_host by assumption.
  simpl in Hh. apply orb_false_iff in Hh as [_ Hh].
  rewrite IH by assumption. reflexivity.
Qed.

Lemma replace_https_host host t :
  contains_char ":" host = false -> path_like t = true ->
  replace_from "https://" "" 0 (host +:+ t)
  = host +:+ replace_from "https://" "" 0 t.
Proof.
  intros Hh Ht. induction host as [|c host IH]; [reflexivity|].
  scan_head c host t.
  rewrite no_https_in_host by assumption.
  simpl in Hh. apply orb_false_iff in Hh as [_ Hh].
  rewrite IH by assumption. reflexivity.
Qed.

Lemma replace_www_host host t :
  contains "www." host = false -> path_like t = true ->
  replace_from "www." "" 0 (host +:+ t)
  = host +:+ replace_from "www." "" 0 t.
Proof.
  intros Hh Ht. induction host as [|c host IH]; [reflexivity|].
  scan_head c host t.
  cbn [contains] in Hh. apply orb_false_iff in Hh as [Hc Hh].
  rewrite no_www_in_host by assumption.
  rewrite IH by assumption. reflexivity.
Qed.

(** A path stays a path under the three replacements: none of the
    patterns starts with a slash. *)
Lemma path_like_replace old t :
  old = "http://" \/ old = "https://" \/ old = "www." ->
  path_like t = true -> path_like (replace_from old "" 0 t) = true.
Proof.
  intros Hold Ht. destruct t as [|c t]; [reflexivity|].
  simpl in Ht. apply Ascii.eqb_eq in Ht. subst c.
  destruct Hold as [-> | [-> | ->]]; reflexivity.
Qed.

End PyStrFacts.

Import PyStrFacts.

Ltac drop_empty :=
  repeat match goal with
         | |- context [EmptyString +:+ ?x] => change (EmptyString +:+ x) with x
         end.

(** Claim C5, amended.  For an input made of an optional [http://] or
    [https://], an optional [www.], a host and an optional path, where the
    host has no slash, no colon and no occurrence of [www.], cleaning
    yields exactly the host. *)
Theorem clean_domain_of_url (scheme www host path : string) :
  scheme ∈ [""; "http://"; "https://"] ->
  www ∈ [""; "www."] ->
  PyStr.contains_char "/" host = false ->
  PyStr.contains_char ":" host = false ->
  PyStr.contains "www." host = false ->
  path_like path = true ->
  clean_domain_of (scheme +:+ www +:+ host +:+ path) = host.
Proof.
  intros Hs Hw Hslash Hcolon Hwww Hp.
  pose proof (path_like_replace "http://" path (or_introl eq_refl) Hp) as Hp1.
  pose proof (path_like_replace "https://" _ (or_intror (or_introl eq_refl)) Hp1) as Hp2.
  pose proof (path_like_replace "www." _ (or_intror (or_intror eq_refl)) Hp2) as Hp3.
  unfold clean_domain_of, PyStr.replace.
  assert (Hgo : PyStr.replace_from "www." "" 0
            (PyStr.replace_from "https://" "" 0
               (PyStr.replace_from "http://" "" 0 (scheme +:+ www +:+ host +:+ path)))
          = host +:+ PyStr.replace_from "www." "" 0
               (PyStr.replace_from "https://" "" 0
                  (PyStr.replace_from "http://" "" 0 path))).
  { repeat rewrite elem_of_cons in Hs. repeat rewrite elem_of_cons in Hw.
    rewrite elem_of_nil in Hs, Hw.
    destruct Hs as [-> | [-> | [-> | []]]]; destruct Hw as [-> | [-> | []]];
      simpl; drop_empty; rewrite replace_http_host by assumption;
      simpl; drop_empty; rewrite replace_https_host by assumption;
      simpl; drop_empty; rewrite replace_www_host by assumption;
      reflexivity. }
  rewrite Hgo. apply hd_split_host; assumption.
Qed.

Lemma clean_domain_of_url_witness :
  clean_domain_of ("https://" +:+ "www." +:+ "example.com" +:+ "/login?next=/home")
  = "example.com".
Proof.
  apply (clean_domain_of_url "https://" "www." "example.com" "/login?next=/home").
  - repeat constructor.
  - repeat constructor.
  - reflexivity.
  - reflexivity.
  - reflexivity.
  - reflexivity.
Defined.

(** Claim C5 as stated fails: an inner [www.] is removed too, where the
    normalisation of the specification leaves the name as it is; and a
    scheme other than the two the code names is not stripped. *)
Lemma clean_domain_of_removes_inner_www :
  clean_domain_of "mywww.example.com" = "myexample.com"
  /\ SpecNormalize.normalize "mywww.example.com" = "mywww.example.com"
  /\ clean_domain_of "mywww.example.com" <> SpecNormalize.normalize "mywww.example.com"
  /\ clean_domain_of "ftp://example.com" = "ftp:"
  /\ SpecNormalize.normalize "ftp://example.com" = "example.com".
Proof.
  split; [reflexivity|]. split; [reflexivity|]. split; [discriminate|].
  split; reflexivity.
Qed.

Example clean_full_url :
  clean_domain_of "https://www.example.com/login?next=/home" = "example.com".
Proof. reflexivity. Qed.

Example clean_upper_case_scheme : clean_domain_of "HTTPS://example.com" = "HTTPS:".
Proof. reflexivity. Qed.

Example normalize_full_url :
  SpecNormalize.normalize "https://www.example.com/login?next=/home" = "example.com".
Proof. reflexivity. Qed.

Example replace_does_not_overlap : PyStr.replace "aa" "" "aaa" = "a".
Proof. reflexivity. Qed.

Example split_keeps_empty_pieces : PyStr.split "/" "a//b/" = ["a"; ""; "b"; ""].
Proof. reflexivity. Qed.

Example strip_both_ends : PyStr.strip "  a.example  " = "a.example".
Proof. reflexivity. Qed.

(** ** Snapshots *)

Ltac unbind H :=
  unfold mbind, result_bind in H;
  repeat match type of H with
         | match ?c with _ => _ end = _ => destruct c eqn:?; try discriminate H
         end.

Lemma get_ssl_info_cases env d :
  (exists info, get_ssl_info_try env d = Ok info /\ get_ssl_info env d = info)
  \/ (exists e, get_ssl_info_try env d = Raise e /\ get_ssl_info env d = error_info d e).
Proof.
  unfold get_ssl_info. destruct (get_ssl_info_try env d) as [info|e]; eauto.
Qed.

Lemma get_ssl_info_try_Ok env d info :
  get_ssl_info_try env d = Ok info ->
  exists n, days_until_expiry info = Some n
            /\ status info = (if 0 <? n then valid else expired)
            /\ domain info = d
            /\ clean_domain info = clean_domain_of d
            /\ error_text info = None.
Proof.
  unfold get_ssl_info_try, getitem. intros H. unbind H.
  injection H as <-. simpl. eauto 10.
Qed.

Lemma issuer_dict_text names acc e :
  issuer_dict names acc = Raise e -> exn_str e <> EmptyString.
Proof.
  revert acc. induction names as [|[|[k v] name] names IH]; simpl; intros acc H.
  - discriminate.
  - injection H as <-. discriminate.
  - eauto.
Qed.

Lemma get_ssl_info_try_Raise env d e :
  world_errors_have_text env ->
  get_ssl_info_try env d = Raise e -> exn_str e <> EmptyString.
Proof.
  intros [Hpeer Hstamp]. unfold get_ssl_info_try, getitem. intros H.
  unfold mbind, result_bind in H.
  destruct (peer_cert env _) as [cert|e1] eqn:E1;
    [|injection H as <-; eauto].
  destruct (cert_notAfter cert) as [na|]; [|injection H as <-; discriminate].
  destruct (strptime env na) as [t|e2] eqn:E2; [|injection H as <-; eauto].
  destruct (cert_issuer cert) as [names|]; [|injection H as <-; discriminate].
  destruct (issuer_dict names ∅) as [iss|e3] eqn:E3;
    [|injection H as <-; eauto using issuer_dict_text].
  destruct (cert_notBefore cert); [discriminate|].
  injection H as <-; discriminate.
Qed.

(** A snapshot of [get_ssl_info] has a countdown exactly when its status
    is not [error], and the status follows the sign of the countdown. *)
Lemma get_ssl_info_shape env d :
  (status (get_ssl_info env d) = error /\ days_until_expiry (get_ssl_info env d) = None)
  \/ (exists n, days_until_expiry (get_ssl_info env d) = Some n
                /\ status (get_ssl_info env d) = (if 0 <? n then valid else expired)).
Proof.
  destruct (get_ssl_info_cases env d) as [(info & Htry & ->) | (e & _ & ->)].
  - right. apply get_ssl_info_try_Ok in Htry as (n & ? & ? & _). eauto.
  - left. split; reflexivity.
Qed.

Lemma alert_condition_total env d :
  alert_condition (get_ssl_info env d) = Ok (alerting env d).
Proof.
  unfold alerting, alert_condition.
  destruct (get_ssl_info_shape env d) as [[-> ->] | (n & -> & ->)]; simpl.
  - reflexivity.
  - destruct (0 <? n); simpl; [|reflexivity]. destruct (n <=? 30); reflexivity.
Qed.

Lemma should_notify_total env d ledger :
  should_notify d (get_ssl_info env d) ledger
  = Ok (alerting env d && not_yet_notified d (get_ssl_info env d) ledger).
Proof.
  unfold should_notify. rewrite alert_condition_total. reflexivity.
Qed.

Lemma alerting_days env d :
  alerting env d = true ->
  exists n, days_until_expiry (get_ssl_info env d) = Some n /\ 0 < n <= 30
            /\ status (get_ssl_info env d) = valid.
Proof.
  unfold alerting, alert_condition.
  destruct (get_ssl_info_shape env d) as [[-> ->] | (n & -> & ->)]; simpl.
  - discriminate.
  - destruct (0 <? n) eqn:Hpos; simpl; [|discriminate].
    destruct (n <=? 30) eqn:Hle; [|discriminate]. intros _.
    exists n. repeat split; try lia.
Qed.

(** ** The decision *)

Lemma should_notify_true d info ledger :
  should_notify d info ledger = Ok true <->
  status info = valid
  /\ (exists n, days_until_expiry info = Some n /\ n <= 30)
  /\ (ledger !! d = None
      \/ exists stored, ledger !! d = Some stored /\ stored <> days_until_expiry info).
Proof.
  unfold should_notify, alert_condition, days_le, not_yet_notified.
  unfold mbind, result_bind. split.
  - intros H. destruct (status info); simpl in H; try discriminate.
    destruct (days_until_expiry info) as [n|]; [|discriminate].
    injection H as H. apply andb_true_iff in H as [Hle Hnew].
    split; [reflexivity|]. split; [exists n; split; [reflexivity|lia]|].
    destruct (ledger !! d) as [stored|]; [right|left; reflexivity].
    exists stored. split; [reflexivity|].
    apply negb_true_iff, bool_decide_eq_false in Hnew. exact Hnew.
  - intros (-> & (n & -> & Hle) & Hnew). simpl.
    replace (n <=? 30) with true by (symmetry; apply Z.leb_le; exact Hle).
    simpl. destruct Hnew as [-> | (stored & -> & Hne)]; [reflexivity|].
    rewrite bool_decide_eq_false_2 by exact Hne. reflexivity.
Qed.

Lemma should_notify_false d info ledger :
  status info <> valid \/ (exists n, days_until_expiry info = Some n /\ 30 < n) ->
  should_notify d info ledger = Ok false.
Proof.
  unfold should_notify, alert_condition, days_le. unfold mbind, result_bind.
  intros [Hst | (n & -> & Hgt)].
  - destruct (status info); simpl; congruence.
  - destruct (status info); simpl; try reflexivity.
    replace (n <=? 30) with false by (symmetry; apply Z.leb_gt; exact Hgt).
    reflexivity.
Qed.

(** Claim C1.  The notification decision (lines 252-253) returns true
    exactly when the snapshot's status is valid, its days_until_expiry is
    at most 30, and the ledger has no entry for the domain or stores a
    value different from the snapshot's days_until_expiry; for a snapshot
    whose status is not valid or whose days_until_expiry exceeds 30 it
    returns false. *)
Theorem should_notify_contract (d : string) (info : SslInfo)
                               (ledger : gmap string (option Z)) :
  (should_notify d info ledger = Ok true <->
   status info = valid
   /\ (exists n, days_until_expiry info = Some n /\ n <= 30)
   /\ (ledger !! d = None
       \/ exists stored, ledger !! d = Some stored /\ stored <> days_until_expiry info))
  /\ (status info <> valid \/ (exists n, days_until_expiry info = Some n /\ 30 < n) ->
      should_notify d info ledger = Ok false).
Proof.
  split; [apply should_notify_true | apply should_notify_false].
Qed.

Lemma should_notify_contract_witness :
  (exists n, days_until_expiry (get_ssl_info (world_days 31 true) "a.example") = Some n
             /\ 30 < n)
  /\ should_notify "a.example" (get_ssl_info (world_days 31 true) "a.example") ∅
     = Ok false.
Proof.
  assert (H : exists n, days_until_expiry (get_ssl_info (world_days 31 true) "a.example")
                        = Some n /\ 30 < n)
    by (exists 31; split; [reflexivity | lia]).
  split; [exact H|].
  apply (proj2 (should_notify_contract "a.example"
                  (get_ssl_info (world_days 31 true) "a.example") ∅)).
  right. exact H.
Defined.

(** ** Classification *)

(** Claim C8.  After a successful inspection the snapshot carries a
    countdown [n]; its status is valid exactly when [n > 0] and expired
    otherwise.  With [n = -5] the status is expired and the notification
    decision is false for every domain and ledger. *)
Theorem status_follows_countdown (env : Env) (d : string) :
  status (get_ssl_info env d) <> error ->
  exists n : Z,
    days_until_expiry (get_ssl_info env d) = Some n
    /\ (status (get_ssl_info env d) = valid <-> 0 < n)
    /\ (status (get_ssl_info env d) = expired <-> n <= 0)
    /\ (n = -5 ->
        status (get_ssl_info env d) = expired
        /\ forall (d' : string) (ledger : gmap string (option Z)),
             should_notify d' (get_ssl_info env d) ledger = Ok false).
Proof.
  intros Hok.
  destruct (get_ssl_info_shape env d) as [[Herr _] | (n & Hdays & Hst)];
    [contradiction|].
  exists n. split; [exact Hdays|].
  destruct (0 <? n) eqn:Hpos.
  - apply Z.ltb_lt in Hpos. rewrite Hst.
    repeat split; try (intros; (lia || discriminate || reflexivity)).
  - apply Z.ltb_ge in Hpos. rewrite Hst.
    repeat split; try (intros; (lia || discriminate || reflexivity)).
    intros. apply should_notify_false. left. rewrite Hst. discriminate.
Qed.

Lemma status_follows_countdown_witness :
  status (get_ssl_info (world_days (-5) true) "expired.example") <> error
  /\ days_until_expiry (get_ssl_info (world_days (-5) true) "expired.example")
     = Some (-5)
  /\ status (get_ssl_info (world_days (-5) true) "expired.example") = expired
  /\ forall (d' : string) (ledger : gmap string (option Z)),
       should_notify d' (get_ssl_info (world_days (-5) true) "expired.example") ledger
       = Ok false.
Proof.
  assert (H : status (get_ssl_info (world_days (-5) true) "expired.example") <> error)
    by (vm_compute; discriminate).
  split; [exact H|]. split; [reflexivity|].
  destruct (status_follows_countdown (world_days (-5) true) "expired.example" H)
    as (n & Hdays & _ & _ & Hminus5).
  apply Hminus5. injection Hdays as <-. reflexivity.
Defined.

(** The scenarios of the specification, on the sample worlds. *)

Example ten_days_left_alerts :
  should_notify "a.example" (get_ssl_info (world_days 10 true) "a.example") ∅ = Ok true.
Proof. reflexivity. Qed.

Example ten_days_left_again_is_silent :
  should_notify "a.example" (get_ssl_info (world_days 10 true) "a.example")
                (recordSent "a.example" (Some 10) ∅) = Ok false.
Proof. reflexivity. Qed.

Example nine_days_left_alerts_again :
  should_notify "a.example" (get_ssl_info (world_days 9 true) "a.example")
                (recordSent "a.example" (Some 10) ∅) = Ok true.
Proof. reflexivity. Qed.

Example thirty_one_days_left_is_silent :
  should_notify "a.example" (get_ssl_info (world_days 31 true) "a.example") ∅ = Ok false.
Proof. reflexivity. Qed.

Example thirty_days_left_alerts :
  should_notify "a.example" (get_ssl_info (world_days 30 true) "a.example") ∅ = Ok true.
Proof. reflexivity. Qed.

Example unreachable_host_is_silent :
  should_notify "a.example" (get_ssl_info world_unreachable "a.example") ∅ = Ok false.
Proof. reflexivity. Qed.

(** The countdown rounds towards minus infinity: four days and a
    microsecond past the end counts as minus five. *)
Example timedelta_days_floors :
  timedelta_days 0 (4 * MICROSECONDS_PER_DAY + 1) = -5.
Proof. reflexivity. Qed.

(** On a dictionary with status valid and no countdown, the comparison
    of line 252 raises; [get_ssl_info] never returns one
    ([get_ssl_info_shape]). *)
Example valid_without_countdown_raises :
  alert_condition {| domain := "a.example"; clean_domain := "a.example";
                     issuer := None; valid_from := None; valid_to := None;
                     expiry_date := None; days_until_expiry := None;
                     status := valid; error_text := None |}
  = Raise TypeError_le.
Proof. reflexivity. Qed.

(** ** The boundary of [get_ssl_info] *)

(** Claim C2, amended.  [get_ssl_info] returns a snapshot on every input.
    When anything in its [try] block raises (resolution, connection,
    timeout, handshake, a missing or malformed certificate field), the
    snapshot has status error, no countdown, the input string unchanged
    in its domain field, and the text [str(e)] of the exception as its
    error description: not empty when every exception of the world
    carries a text, empty for an exception raised without a message. *)
Theorem get_ssl_info_failure (env : Env) (d : string) (e : Exn) :
  get_ssl_info_try env d = Raise e ->
  status (get_ssl_info env d) = error
  /\ domain (get_ssl_info env d) = d
  /\ days_until_expiry (get_ssl_info env d) = None
  /\ error_text (get_ssl_info env d) = Some (exn_str e)
  /\ (world_errors_have_text env -> exn_str e <> EmptyString).
Proof.
  intros Hraise.
  assert (world_errors_have_text env -> exn_str e <> EmptyString) as Htext
    by (intros Hworld; exact (get_ssl_info_try_Raise env d e Hworld Hraise)).
  unfold get_ssl_info. rewrite Hraise. simpl. auto.
Qed.

Lemma world_unreachable_has_text : world_errors_have_text world_unreachable.
Proof.
  split; simpl; intros ? e H; [|discriminate].
  injection H as <-. discriminate.
Defined.

Lemma get_ssl_info_failure_witness :
  status (get_ssl_info world_unreachable "https://www.a.example/login") = error
  /\ domain (get_ssl_info world_unreachable "https://www.a.example/login")
     = "https://www.a.example/login"
  /\ days_until_expiry (get_ssl_info world_unreachable "https://www.a.example/login") = None
  /\ error_text (get_ssl_info world_unreachable "https://www.a.example/login")
     = Some (exn_str timed_out)
  /\ exn_str timed_out <> EmptyString.
Proof.
  destruct (get_ssl_info_failure world_unreachable "https://www.a.example/login"
              timed_out eq_refl) as (Hst & Hdom & Hdays & Htext & Hnonempty).
  split; [exact Hst|]. split; [exact Hdom|]. split; [exact Hdays|].
  split; [exact Htext|]. exact (Hnonempty world_unreachable_has_text).
Defined.

(** Claim C2 as stated fails: when the connection raises an exception
    without a message, the error description of the snapshot is the empty
    string. *)
Lemma get_ssl_info_empty_error_text :
  get_ssl_info_try world_silent "a.example" = Raise silent_error
  /\ status (get_ssl_info world_silent "a.example") = error
  /\ domain (get_ssl_info world_silent "a.example") = "a.example"
  /\ error_text (get_ssl_info world_silent "a.example") = Some EmptyString
  /\ ~ (exists text : string,
          error_text (get_ssl_info world_silent "a.example") = Some text
          /\ text <> EmptyString).
Proof.
  split; [reflexivity|]. split; [reflexivity|]. split; [reflexivity|].
  split; [reflexivity|].
  intros (text & Htext & Hne). injection Htext as <-. contradiction.
Qed.

(** ** The ledger *)

(** Claim C9.  Recording a sent notification twice with the same value
    leaves the ledger as recording it once does. *)
Theorem recordSent_idempotent (d : string) (n : option Z)
                              (ledger : gmap string (option Z)) :
  recordSent d n (recordSent d n ledger) = recordSent d n ledger.
Proof. unfold recordSent. apply insert_insert_eq. Qed.

Lemma not_yet_notified_recorded d info ledger :
  not_yet_notified d info (recordSent d (days_until_expiry info) ledger) = false.
Proof.
  unfold not_yet_notified, recordSent. rewrite lookup_insert_eq.
  rewrite bool_decide_eq_true_2 by reflexivity. reflexivity.
Qed.

(** ** The check pass *)

Lemma check_domain_spec env all d ledger :
  check_domain env all d ledger
  = Ok (if alerting env d && not_yet_notified d (get_ssl_info env d) ledger
        then (recordSent d (days_until_expiry (get_ssl_info env d)) ledger,
              [EvInspect d; EvReport;
               EvNotify (get_ssl_info env d) (generate_pdf_report env all)
                 (send_email_notification env (get_ssl_info env d)
                    (generate_pdf_report env all))])
        else (ledger, [EvInspect d])).
Proof.
  unfold check_domain. rewrite should_notify_total. simpl.
  destruct (alerting env d && not_yet_notified d (get_ssl_info env d) ledger);
    reflexivity.
Qed.

Lemma check_domain_ledger env all d ledger ledger1 evs :
  check_domain env all d ledger = Ok (ledger1, evs) ->
  forall d' : string,
    ledger1 !! d' = if bool_decide (d' = d) && alerting env d
                    then Some (days_until_expiry (get_ssl_info env d))
                    else ledger !! d'.
Proof.
  rewrite check_domain_spec. intros H d'.
  destruct (alerting env d) eqn:Ha; simpl in H.
  - unfold not_yet_notified in H.
    destruct (ledger !! d) as [stored|] eqn:Hl; simpl in H.
    + case_bool_decide as Hst; simpl in H; injection H as <- <-.
      * case_bool_decide; simpl; [subst; congruence | reflexivity].
      * unfold recordSent. case_bool_decide; simpl.
        -- subst. apply lookup_insert_eq.
        -- apply lookup_insert_ne. congruence.
    + injection H as <- <-. unfold recordSent. case_bool_decide; simpl.
      * subst. apply lookup_insert_eq.
      * apply lookup_insert_ne. congruence.
  - injection H as <- <-. rewrite andb_false_r. reflexivity.
Qed.

Lemma check_domain_trace env all d ledger ledger1 evs :
  check_domain env all d ledger = Ok (ledger1, evs) ->
  inspected evs = [d] /\ sleeps evs = [].
Proof.
  rewrite check_domain_spec. intros H.
  destruct (alerting env d && _); injection H as <- <-; split; reflexivity.
Qed.

Lemma inspected_app evs1 evs2 : inspected (evs1 ++ evs2) = inspected evs1 ++ inspected evs2.
Proof. unfold inspected. apply omap_app. Qed.

Lemma sleeps_app evs1 evs2 : sleeps (evs1 ++ evs2) = sleeps evs1 ++ sleeps evs2.
Proof. unfold sleeps. apply omap_app. Qed.

Lemma check_loop_spec env all todo :
  forall ledger : gmap string (option Z),
  exists ledger' evs,
    check_loop env all todo ledger = Ok (ledger', evs)
    /\ inspected evs = todo
    /\ sleeps evs = []
    /\ forall d : string,
         ledger' !! d = if bool_decide (d ∈ todo) && alerting env d
                        then Some (days_until_expiry (get_ssl_info env d))
                        else ledger !! d.
Proof.
  induction todo as [|d0 rest IH]; intros ledger.
  - exists ledger, []. repeat split.
  - destruct (check_domain env all d0 ledger) as [[ledger1 evs1]|e] eqn:H1;
      [|rewrite check_domain_spec in H1; discriminate].
    destruct (IH ledger1) as (ledger2 & evs2 & H2 & Hi & Hs & Hl).
    exists ledger2, (evs1 ++ evs2).
    destruct (check_domain_trace _ _ _ _ _ _ H1) as [Hi1 Hs1].
    split; [simpl; rewrite H1; simpl; rewrite H2; reflexivity|].
    split; [rewrite inspected_app, Hi1, Hi; reflexivity|].
    split; [rewrite sleeps_app, Hs1, Hs; reflexivity|].
    intros d. rewrite Hl, (check_domain_ledger _ _ _ _ _ _ H1 d).
    destruct (decide (d = d0)) as [-> | Hne].
    + rewrite (bool_decide_eq_true_2 (d0 = d0)) by reflexivity.
      rewrite (bool_decide_eq_true_2 (d0 ∈ d0 :: rest))
        by (apply elem_of_cons; left; reflexivity).
      simpl. destruct (alerting env d0); [|rewrite andb_false_r; reflexivity].
      destruct (bool_decide (d0 ∈ rest)); reflexivity.
    + rewrite (bool_decide_eq_false_2 (d = d0)) by exact Hne. simpl.
      replace (bool_decide (d ∈ d0 :: rest)) with (bool_decide (d ∈ rest));
        [reflexivity|].
      apply bool_decide_ext. rewrite elem_of_cons. tauto.
Qed.

Lemma check_domains_spec env st :
  exists ledger' evs,
    check_domains env st
    = Ok ({| domains := domains st; notifications_sent := ledger' |}, evs)
    /\ inspected evs = domains st
    /\ sleeps evs = []
    /\ forall d : string,
         ledger' !! d = if bool_decide (d ∈ domains st) && alerting env d
                        then Some (days_until_expiry (get_ssl_info env d))
                        else notifications_sent st !! d.
Proof.
  destruct (check_loop_spec env (domains st) (domains st) (notifications_sent st))
    as (ledger' & evs & H & Hi & Hs & Hl).
  exists ledger', evs. unfold check_domains. rewrite H. simpl. auto.
Qed.

Lemma check_domains_empty env st :
  domains st = [] -> check_domains env st = Ok (st, []).
Proof.
  destruct st as [ds ledger]. simpl. intros ->. reflexivity.
Qed.

(** ** A failed delivery *)

(** Claim C7.  When the decision is true for a domain in a check pass,
    the turn returns normally with the ledger entry overwritten by the
    current countdown, whatever [send_email_notification] met: an
    exception inside it is turned into a log line and dropped.  A later
    check that sees the same countdown is suppressed. *)
Theorem ledger_marked_whatever_delivery
    (env : Env) (all : list string) (d : string) (ledger : gmap string (option Z)) :
  should_notify d (get_ssl_info env d) ledger = Ok true ->
  let info := get_ssl_info env d in
  let pdf := generate_pdf_report env all in
  check_domain env all d ledger
  = Ok (recordSent d (days_until_expiry info) ledger,
        [EvInspect d; EvReport; EvNotify info pdf (send_email_notification env info pdf)])
  /\ (forall e : Exn,
        send_email_notification_try env info pdf = Raise e ->
        send_email_notification env info pdf = SendFailed e)
  /\ (forall info' : SslInfo,
        days_until_expiry info' = days_until_expiry info ->
        should_notify d info' (recordSent d (days_until_expiry info) ledger) = Ok false)
  /\ (forall (env' : Env) (all' : list string),
        get_ssl_info env' d = info ->
        check_domain env' all' d (recordSent d (days_until_expiry info) ledger)
        = Ok (recordSent d (days_until_expiry info) ledger, [EvInspect d])).
Proof.
  intros Hgo info pdf. subst info pdf.
  pose proof Hgo as Hgo'. rewrite should_notify_total in Hgo'.
  injection Hgo' as Hgo'.
  apply should_notify_true in Hgo as (Hst & (n & Hn & Hle) & _).
  split; [|split; [|split]].
  - rewrite check_domain_spec, Hgo'. reflexivity.
  - intros e He. unfold send_email_notification. rewrite He. reflexivity.
  - intros info' Hsame.
    unfold should_notify, alert_condition. unfold mbind, result_bind.
    destruct (Status_eqb (status info') valid); [|reflexivity].
    rewrite Hsame, Hn. simpl.
    rewrite <- Hn, <- Hsame, not_yet_notified_recorded, andb_false_r.
    reflexivity.
  - intros env' all' Hinfo.
    rewrite check_domain_spec, Hinfo, not_yet_notified_recorded, andb_false_r.
    reflexivity.
Qed.

Lemma ledger_marked_whatever_delivery_witness :
  send_email_notification (world_days 10 false)
    (get_ssl_info (world_days 10 false) "a.example")
    (generate_pdf_report (world_days 10 false) ["a.example"])
  = SendFailed smtp_refused
  /\ check_domain (world_days 10 false) ["a.example"] "a.example" ∅
     = Ok (recordSent "a.example" (Some 10) ∅,
           [EvInspect "a.example"; EvReport;
            EvNotify (get_ssl_info (world_days 10 false) "a.example")
              (generate_pdf_report (world_days 10 false) ["a.example"])
              (send_email_notification (world_days 10 false)
                 (get_ssl_info (world_days 10 false) "a.example")
                 (generate_pdf_report (world_days 10 false) ["a.example"]))]).
Proof.
  split; [reflexivity|].
  apply (ledger_marked_whatever_delivery (world_days 10 false) ["a.example"] "a.example" ∅).
  reflexivity.
Defined.

(** ** The scheduler *)

Lemma background_checker_body_spec env st :
  exists st1 evs,
    check_domains env st = Ok (st1, evs)
    /\ background_checker_body env st = Ok (st1, evs ++ [EvSleep CHECK_INTERVAL])
    /\ domains st1 = domains st
    /\ inspected evs = domains st
    /\ sleeps evs = [].
Proof.
  destruct (check_domains_spec env st) as (ledger' & evs & H & Hi & Hs & _).
  unfold background_checker_body.
  destruct (domains st) as [|d ds] eqn:Hds.
  - exists st, []. rewrite check_domains_empty by exact Hds.
    repeat split; auto.
  - rewrite H. simpl. eexists _, evs. repeat split; auto.
Qed.

Lemma background_checker_runs n :
  forall (world : nat -> Env) (k : nat) (st : State),
  exists st' evs,
    background_checker n world k st = Ok (st', evs)
    /\ sleeps evs = replicate n CHECK_INTERVAL.
Proof.
  induction n as [|n IH]; intros world k st.
  - exists st, []. split; reflexivity.
  - destruct (background_checker_body_spec (world k) st)
      as (st1 & evs1 & _ & Hbody & _ & _ & Hs1).
    destruct (IH world (S k) st1) as (st2 & evs2 & Hrest & Hs2).
    exists st2, ((evs1 ++ [EvSleep CHECK_INTERVAL]) ++ evs2).
    split.
    + simpl. rewrite Hbody. simpl. rewrite Hrest. reflexivity.
    + rewrite !sleeps_app, Hs1, Hs2. reflexivity.
Qed.

(** Claim C3, amended.  Every turn of the scheduler loop first runs the
    check pass over every registered domain, in registry order (a pass
    over an empty registry does nothing), and then sleeps for 3600
    seconds; the loop never stops by itself: any number of turns runs to
    its end, with one sleep per turn. *)
Theorem background_checker_checks_then_sleeps (env : Env) (st : State) :
  (exists st1 evs,
     check_domains env st = Ok (st1, evs)
     /\ background_checker_body env st = Ok (st1, evs ++ [EvSleep CHECK_INTERVAL])
     /\ inspected evs = domains st
     /\ sleeps evs = [])
  /\ CHECK_INTERVAL = 3600
  /\ forall (n : nat) (world : nat -> Env) (k : nat),
     exists st' evs,
       background_checker n world k st = Ok (st', evs)
       /\ sleeps evs = replicate n CHECK_INTERVAL.
Proof.
  split; [|split; [reflexivity|]].
  - destruct (background_checker_body_spec env st)
      as (st1 & evs & H1 & H2 & _ & H3 & H4).
    exists st1, evs. auto.
  - intros n world k. apply background_checker_runs.
Qed.

(** Claim C3 as stated fails: with a domain registered, a turn of the loop
    inspects it first and sleeps last. *)
Lemma background_checker_sleeps_last :
  background_checker_body world_unreachable watching_a
  = Ok (watching_a, [EvInspect "a.example"; EvSleep 3600])
  /\ ~ (exists st1 evs,
          background_checker_body world_unreachable watching_a
          = Ok (st1, EvSleep 3600 :: evs)).
Proof.
  split; [reflexivity|].
  intros (st1 & evs & H). vm_compute in H. discriminate H.
Qed.

(** ** The manual check *)

(** Claim C4, amended.  The manual check inspects every registered
    domain once, in registry order, and answers with the snapshots; it
    sends nothing and leaves the registry and the ledger as they were. *)
Theorem check_now_only_inspects (env : Env) (st : State) :
  exists evs,
    check_now env st
    = Ok (st, RespResults (map (get_ssl_info env) (domains st)), evs)
    /\ inspected evs = domains st
    /\ notified evs = []
    /\ forallb is_inspect evs = true.
Proof.
  exists (map EvInspect (domains st)). split; [reflexivity|].
  induction (domains st) as [|d ds IH]; [repeat split|].
  destruct IH as (Hi & Hn & Hf). simpl.
  unfold inspected, notified in *. simpl. rewrite Hi, Hn, Hf. repeat split.
Qed.

Lemma watching_a_reachable : reachable watching_a.
Proof.
  apply (reachable_step (OpAdd (world_days 45 true) (Some "a.example"))
           initial_state watching_a [EvInspect "a.example"]).
  - apply reachable_initial.
  - reflexivity.
Qed.

(** Claim C4 as stated fails: with a domain due for an alert, the manual
    check sends nothing and the ledger stays without an entry, where the
    check pass of the scheduler sends and records. *)
Lemma check_now_leaves_ledger :
  reachable watching_a
  /\ should_notify "a.example" (get_ssl_info (world_days 10 true) "a.example")
       (notifications_sent watching_a) = Ok true
  /\ (exists resp evs,
        check_now (world_days 10 true) watching_a = Ok (watching_a, resp, evs)
        /\ notified evs = [])
  /\ notifications_sent watching_a !! "a.example" = None
  /\ (exists evs,
        check_domains (world_days 10 true) watching_a = Ok (notified_a_at_10, evs)
        /\ notified evs = ["a.example"])
  /\ notifications_sent notified_a_at_10 !! "a.example" = Some (Some 10).
Proof.
  split; [exact watching_a_reachable|].
  split; [reflexivity|].
  split; [eexists _, _; split; reflexivity|].
  split; [reflexivity|].
  split; [eexists; split; reflexivity|].
  reflexivity.
Qed.

(** ** The registry and the ledger together *)

Lemma list_remove_other d d' ds :
  d' <> d -> (d' ∈ list_remove d ds <-> d' ∈ ds).
Proof.
  intros Hne. induction ds as [|x ds IH]; simpl; [reflexivity|].
  case_bool_decide as Hx.
  - subst x. rewrite elem_of_cons. tauto.
  - rewrite !elem_of_cons, IH. reflexivity.
Qed.

Lemma list_remove_NoDup d ds : NoDup ds -> NoDup (list_remove d ds) /\ d ∉ list_remove d ds.
Proof.
  induction 1 as [|x ds Hx Hnd IH]; simpl.
  - split; [constructor | apply not_elem_of_nil].
  - case_bool_decide as Hxd.
    + subst x. auto.
    + destruct IH as [IH1 IH2]. split.
      * constructor; [|exact IH1]. rewrite list_remove_other by exact Hxd. exact Hx.
      * rewrite elem_of_cons. intros [-> | Hin]; [congruence | contradiction].
Qed.

Lemma add_domain_spec env field st :
  let d := form_domain field in
  add_domain env field st
  = Ok (if negb (String.eqb d EmptyString) && negb (in_domains d (domains st))
        then if alerting env d
             then ({| domains := domains st ++ [d];
                      notifications_sent :=
                        recordSent d (days_until_expiry (get_ssl_info env d))
                                   (notifications_sent st) |},
                   RespDomains (domains st ++ [d]),
                   [EvInspect d; EvReport;
                    EvNotify (get_ssl_info env d)
                      (generate_pdf_report env (domains st ++ [d]))
                      (send_email_notification env (get_ssl_info env d)
                         (generate_pdf_report env (domains st ++ [d])))])
             else ({| domains := domains st ++ [d];
                      notifications_sent := notifications_sent st |},
                   RespDomains (domains st ++ [d]), [EvInspect d])
        else (st, RespDomains (domains st), [])).
Proof.
  intros d. unfold add_domain. fold d.
  destruct (negb (String.eqb d EmptyString) && negb (in_domains d (domains st)));
    [|reflexivity].
  rewrite alert_condition_total. simpl. destruct (alerting env d); reflexivity.
Qed.

Lemma run_op_total op st : exists st1 evs, run_op op st = Ok (st1, evs).
Proof.
  destruct op as [env field | field | env | env]; simpl.
  - rewrite add_domain_spec. simpl.
    repeat match goal with |- context [if ?c then _ else _] => destruct c end;
      simpl; eauto.
  - unfold remove_domain. destruct (in_domains _ _); simpl; eauto.
  - eauto.
  - destruct (check_domains_spec env st) as (ledger' & evs & H & _). eauto.
Qed.

Lemma run_op_domains op st st1 evs :
  run_op op st = Ok (st1, evs) -> NoDup (domains st) -> NoDup (domains st1).
Proof.
  destruct op as [env field | field | env | env]; simpl; intros H Hnd.
  - rewrite add_domain_spec in H. simpl in H.
    destruct (negb (String.eqb _ _)) eqn:Hne; simpl in H;
      [|injection H as <- _; exact Hnd].
    unfold in_domains in H. case_bool_decide as Hin; simpl in H;
      [injection H as <- _; exact Hnd|].
    assert (NoDup (domains st ++ [form_domain field])) as Hnd'.
    { apply NoDup_app. split; [exact Hnd|]. split; [|apply NoDup_singleton].
      intros x Hx Hx'. apply list_elem_of_singleton in Hx'. congruence. }
    destruct (alerting env _); injection H as <- _; exact Hnd'.
  - unfold remove_domain in H. destruct (in_domains _ _); simpl in H;
      injection H as <- _; [|exact Hnd].
    simpl. apply list_remove_NoDup. exact Hnd.
  - injection H as <- _. exact Hnd.
  - destruct (check_domains_spec env st) as (ledger' & evs' & H' & _).
    rewrite H' in H. injection H as <- _. exact Hnd.
Qed.

Lemma run_op_ledger op st st1 evs :
  ledger_within_registry st -> run_op op st = Ok (st1, evs) ->
  ledger_within_registry st1.
Proof.
  unfold ledger_within_registry.
  destruct op as [env field | field | env | env]; simpl; intros Hinv H d' Hd'.
  - rewrite add_domain_spec in H. simpl in H.
    destruct (negb (String.eqb _ _) && negb (in_domains _ _));
      [|injection H as <- _; auto].
    destruct (alerting env _); injection H as <- _; simpl in *.
    + unfold recordSent in Hd'. apply elem_of_app.
      destruct (decide (form_domain field = d')) as [<-|Hne].
      * right. apply list_elem_of_singleton. reflexivity.
      * left. rewrite lookup_insert_ne in Hd' by exact Hne. auto.
    + apply elem_of_app. auto.
  - unfold remove_domain in H. destruct (in_domains _ _); simpl in H;
      injection H as <- _; simpl in *; [|auto].
    assert (d' <> form_domain field /\ is_Some (notifications_sent st !! d'))
      as [Hne Hsome].
    { destruct (notifications_sent st !! form_domain field) eqn:Hl.
      - unfold purge in Hd'. destruct (decide (form_domain field = d')) as [<-|Hne].
        + rewrite lookup_delete_eq in Hd'. destruct Hd' as [? Hd']. discriminate.
        + rewrite lookup_delete_ne in Hd' by exact Hne. split; [congruence | exact Hd'].
      - split; [|exact Hd']. intros ->. rewrite Hl in Hd'.
        destruct Hd' as [? Hd']. discriminate. }
    apply list_remove_other; auto.
  - injection H as <- _. auto.
  - destruct (check_domains_spec env st) as (ledger' & evs' & H' & _ & _ & Hl).
    rewrite H' in H. injection H as <- _. simpl in *.
    rewrite Hl in Hd'. case_bool_decide as Hin; simpl in Hd'; auto.
Qed.

Lemma reachable_ledger st : reachable st -> ledger_within_registry st.
Proof.
  induction 1 as [|op st st1 evs _ IH Hrun].
  - intros d [x Hx]. simpl in Hx. rewrite lookup_empty in Hx. discriminate.
  - eapply run_op_ledger; eassumption.
Qed.

(** Claim C10.  In every state reached from the initial one by whole
    operations (add, remove, manual check, check pass), every key of the
    ledger is in the registry; each operation preserves this, and each
    operation returns. *)
Theorem ledger_within_registry_invariant :
  (forall st : State, reachable st -> ledger_within_registry st)
  /\ (forall (op : Op) (st st1 : State) (evs : list Event),
        ledger_within_registry st -> run_op op st = Ok (st1, evs) ->
        ledger_within_registry st1)
  /\ (forall (op : Op) (st : State), exists st1 evs, run_op op st = Ok (st1, evs)).
Proof.
  split; [exact reachable_ledger|]. split; [|exact run_op_total].
  intros. eapply run_op_ledger; eassumption.
Qed.

Lemma notified_a_at_10_reachable : reachable notified_a_at_10.
Proof.
  apply (reachable_step (OpCheckPass (world_days 10 false))
           watching_a notified_a_at_10
           [EvInspect "a.example"; EvReport;
            EvNotify (get_ssl_info (world_days 10 false) "a.example")
              (Some "%PDF-1.4") (SendFailed smtp_refused)]).
  - exact watching_a_reachable.
  - reflexivity.
Defined.

Lemma ledger_within_registry_invariant_witness :
  reachable watching_a
  /\ ledger_within_registry watching_a
  /\ run_op (OpCheckPass (world_days 10 false)) watching_a
     = Ok (notified_a_at_10,
           [EvInspect "a.example"; EvReport;
            EvNotify (get_ssl_info (world_days 10 false) "a.example")
              (Some "%PDF-1.4") (SendFailed smtp_refused)])
  /\ ledger_within_registry notified_a_at_10.
Proof.
  pose proof (proj1 ledger_within_registry_invariant watching_a watching_a_reachable)
    as Hinv.
  split; [exact watching_a_reachable|]. split; [exact Hinv|].
  split; [reflexivity|].
  exact (proj1 (proj2 ledger_within_registry_invariant)
           (OpCheckPass (world_days 10 false)) watching_a notified_a_at_10 _
           Hinv eq_refl).
Defined.

Lemma reachable_NoDup st : reachable st -> NoDup (domains st).
Proof.
  induction 1 as [|op st st1 evs _ IH Hrun].
  - constructor.
  - eapply run_op_domains; eassumption.
Qed.

(** ** Removing and adding again *)

(** Claim C6.  In a reachable state, removing a domain leaves neither a
    registry entry nor a ledger entry for it; adding it again while its
    certificate is valid with a countdown of at most 30 sends a
    notification and records the countdown, whatever the ledger held
    before the removal. *)
Theorem remove_then_add_notifies
    (st : State) (field : option string) (env : Env) (n : Z) :
  reachable st ->
  let d := form_domain field in
  exists st1 : State,
    remove_domain field st = Ok (st1, RespDomains (domains st1), [])
    /\ (d ∉ domains st1)
    /\ notifications_sent st1 !! d = None
    /\ (d <> EmptyString ->
        status (get_ssl_info env d) = valid ->
        days_until_expiry (get_ssl_info env d) = Some n ->
        n <= 30 ->
        exists (st2 : State) (pdf : option string) (log : SendLog),
          add_domain env field st1
          = Ok (st2, RespDomains (domains st2),
                [EvInspect d; EvReport; EvNotify (get_ssl_info env d) pdf log])
          /\ (d ∈ domains st2)
          /\ notifications_sent st2 !! d = Some (Some n)).
Proof.
  intros Hreach d.
  pose proof (reachable_NoDup st Hreach) as Hnd.
  pose proof (reachable_ledger st Hreach) as Hinv.
  assert (exists st1, remove_domain field st = Ok (st1, RespDomains (domains st1), [])
                      /\ (d ∉ domains st1) /\ notifications_sent st1 !! d = None)
    as (st1 & Hrem & Hout & Hnone).
  { unfold remove_domain, in_domains. fold d. case_bool_decide as Hin.
    - exists {| domains := list_remove d (domains st);
                notifications_sent :=
                  match notifications_sent st !! d with
                  | Some _ => purge d (notifications_sent st)
                  | None => notifications_sent st
                  end |}.
      split; [reflexivity|]. simpl. split.
      + apply list_remove_NoDup. exact Hnd.
      + destruct (notifications_sent st !! d) eqn:Hl; [|exact Hl].
        apply lookup_delete_eq.
    - exists st. split; [reflexivity|]. split; [exact Hin|].
      destruct (notifications_sent st !! d) eqn:Hl; [|reflexivity].
      exfalso. apply Hin, Hinv. eauto. }
  exists st1. split; [exact Hrem|]. split; [exact Hout|]. split; [exact Hnone|].
  intros Hname Hvalid Hdays Hle.
  pose proof (add_domain_spec env field st1) as Hadd. simpl in Hadd. fold d in Hadd.
  assert (String.eqb d EmptyString = false) as Hne
    by (apply String.eqb_neq; exact Hname).
  assert (in_domains d (domains st1) = false) as Hfresh
    by (apply bool_decide_eq_false_2; exact Hout).
  assert (alerting env d = true) as Halert.
  { unfold alerting, alert_condition. rewrite Hvalid, Hdays. simpl.
    replace (n <=? 30) with true by (symmetry; apply Z.leb_le; exact Hle).
    reflexivity. }
  rewrite Hne, Hfresh, Halert in Hadd.
  simpl in Hadd. rewrite Hadd.
  exists {| domains := domains st1 ++ [d];
            notifications_sent :=
              recordSent d (days_until_expiry (get_ssl_info env d))
                         (notifications_sent st1) |}.
  eexists _, _. split; [reflexivity|]. simpl.
  split.
  - apply elem_of_app. right. apply list_elem_of_singleton. reflexivity.
  - rewrite Hdays. apply lookup_insert_eq.
Qed.

Lemma remove_then_add_notifies_witness :
  reachable notified_a_at_10
  /\ exists st1 : State,
       remove_domain (Some " a.example ") notified_a_at_10
       = Ok (st1, RespDomains (domains st1), [])
       /\ ("a.example" ∉ domains st1)
       /\ notifications_sent st1 !! "a.example" = None
       /\ exists (st2 : State) (pdf : option string) (log : SendLog),
            add_domain (world_days 10 true) (Some " a.example ") st1
            = Ok (st2, RespDomains (domains st2),
                  [EvInspect "a.example"; EvReport;
                   EvNotify (get_ssl_info (world_days 10 true) "a.example") pdf log])
            /\ ("a.example" ∈ domains st2)
            /\ notifications_sent st2 !! "a.example" = Some (Some 10).
Proof.
  split; [exact notified_a_at_10_reachable|].
  destruct (remove_then_add_notifies notified_a_at_10 (Some " a.example ")
              (world_days 10 true) 10 notified_a_at_10_reachable)
    as (st1 & Hrem & Hout & Hnone & Hadd).
  exists st1. split; [exact Hrem|]. split; [exact Hout|]. split; [exact Hnone|].
  apply Hadd.
  - discriminate.
  - reflexivity.
  - reflexivity.
  - lia.
Defined.

(** * Further properties *)

(** ** More on cleaning *)

Lemma split_head_no_sep sep s :
  PyStr.contains_char sep (hd EmptyString (PyStr.split sep s)) = false.
Proof.
  induction s as [|c s IH]; simpl; [reflexivity|].
  destruct (Ascii.eqb c sep) eqn:Hc; [reflexivity|].
  destruct (PyStr.split sep s) as [|piece pieces]; simpl in *.
  - rewrite Ascii.eqb_sym, Hc. reflexivity.
  - rewrite Ascii.eqb_sym, Hc, IH. reflexivity.
Qed.

(** X1.  The cleaned host never contains a slash, whatever the input. *)
Theorem clean_domain_of_no_slash (d : string) :
  PyStr.contains_char "/" (clean_domain_of d) = false.
Proof. unfold clean_domain_of. apply split_head_no_sep. Qed.

(** ** More on snapshots *)

(** X2.  A snapshot keeps the input in its domain field and has one of
    two shapes: status error with an error text, the input as clean
    domain and no countdown, issuer or dates; or a status other than
    error with no error text, the cleaned host, and a countdown, issuer
    and dates. *)
Theorem get_ssl_info_two_shapes (env : Env) (d : string) :
  let info := get_ssl_info env d in
  domain info = d
  /\ ((status info = error
       /\ clean_domain info = d
       /\ is_Some (error_text info)
       /\ days_until_expiry info = None
       /\ issuer info = None /\ valid_from info = None
       /\ valid_to info = None /\ expiry_date info = None)
      \/ (status info <> error
          /\ clean_domain info = clean_domain_of d
          /\ error_text info = None
          /\ is_Some (days_until_expiry info)
          /\ is_Some (issuer info) /\ is_Some (valid_from info)
          /\ is_Some (valid_to info) /\ is_Some (expiry_date info))).
Proof.
  intros info. subst info. unfold get_ssl_info.
  destruct (get_ssl_info_try env d) as [info|e] eqn:Htry.
  - unfold get_ssl_info_try, getitem in Htry. unbind Htry.
    injection Htry as <-. simpl. split; [reflexivity|]. right.
    split; [destruct (0 <? _); discriminate|]. eauto 10.
  - simpl. split; [reflexivity|]. left. eauto 10.
Qed.

(** X3.  Two inputs with the same cleaned host get, in the same world, the
    same status, countdown, error text, issuer and dates. *)
Theorem get_ssl_info_by_clean_host (env : Env) (d1 d2 : string) :
  clean_domain_of d1 = clean_domain_of d2 ->
  let a := get_ssl_info env d1 in
  let b := get_ssl_info env d2 in
  status a = status b
  /\ days_until_expiry a = days_until_expiry b
  /\ error_text a = error_text b
  /\ issuer a = issuer b
  /\ valid_from a = valid_from b
  /\ valid_to a = valid_to b
  /\ expiry_date a = expiry_date b.
Proof.
  intros Hclean a b. subst a b. unfold get_ssl_info, get_ssl_info_try.
  rewrite Hclean. unfold mbind, result_bind.
  destruct (peer_cert env _) as [cert|e]; [|repeat split].
  destruct (getitem "notAfter" _) as [na|e]; [|repeat split].
  destruct (strptime env na) as [t|e]; [|repeat split].
  destruct (getitem "issuer" _) as [names|e]; [|repeat split].
  destruct (issuer_dict names ∅) as [iss|e]; [|repeat split].
  destruct (getitem "notBefore" _) as [nb|e]; repeat split.
Qed.

Lemma get_ssl_info_by_clean_host_witness :
  status (get_ssl_info (world_days 10 true) "https://www.a.example/login")
  = status (get_ssl_info (world_days 10 true) "a.example")
  /\ days_until_expiry (get_ssl_info (world_days 10 true) "https://www.a.example/login")
     = days_until_expiry (get_ssl_info (world_days 10 true) "a.example").
Proof.
  pose proof (get_ssl_info_by_clean_host (world_days 10 true)
                "https://www.a.example/login" "a.example" eq_refl) as H.
  simpl in H. split; [exact (proj1 H) | exact (proj1 (proj2 H))].
Defined.

(** ** A full day *)

Lemma timedelta_days_bounds expiry now_ :
  timedelta_days expiry now_ * MICROSECONDS_PER_DAY <= expiry - now_
  < (timedelta_days expiry now_ + 1) * MICROSECONDS_PER_DAY.
Proof.
  unfold timedelta_days, MICROSECONDS_PER_DAY.
  pose proof (Z.div_mod (expiry - now_) (86400 * 1000000) ltac:(lia)).
  pose proof (Z.mod_pos_bound (expiry - now_) (86400 * 1000000) ltac:(lia)).
  lia.
Qed.

(** X4.  The countdown is the floor, in days, of the parsed [notAfter]
    (a naive datetime in GMT) minus [datetime.now()] (a naive datetime in
    local time).  A certificate that was read is classified valid exactly
    when that difference is at least one whole day, and is in the alert
    window exactly when it is at least one and less than 31 days.  On a
    host whose clock is [offset] ahead of UTC, valid means that the time
    really left is at least one day plus [offset]; only with offset 0 is
    that one day. *)
Theorem valid_needs_a_full_day (env : Env) (d : string) (cert : Cert)
                               (stamp : string) (expiry : Z) :
  peer_cert env (clean_domain_of d) = Ok cert ->
  cert_notAfter cert = Some stamp ->
  strptime env stamp = Ok expiry ->
  status (get_ssl_info env d) <> error ->
  (status (get_ssl_info env d) = valid
   <-> now env + MICROSECONDS_PER_DAY <= expiry)
  /\ (alert_condition (get_ssl_info env d) = Ok true
      <-> now env + MICROSECONDS_PER_DAY <= expiry
          < now env + 31 * MICROSECONDS_PER_DAY)
  /\ (forall utc_now offset : Z,
        now env = utc_now + offset ->
        (status (get_ssl_info env d) = valid
         <-> MICROSECONDS_PER_DAY + offset <= expiry - utc_now)).
Proof.
  intros Hcert Hstamp Hexp Hok.
  pose proof (timedelta_days_bounds expiry (now env)) as Hb.
  assert (Hshape : days_until_expiry (get_ssl_info env d)
                   = Some (timedelta_days expiry (now env))
                   /\ status (get_ssl_info env d)
                      = if 0 <? timedelta_days expiry (now env) then valid else expired).
  { revert Hok. unfold get_ssl_info, get_ssl_info_try.
    rewrite Hcert. simpl. rewrite Hstamp. simpl. rewrite Hexp. simpl.
    unfold mbind, result_bind.
    destruct (getitem "issuer" _) as [names|e]; [|simpl; congruence].
    destruct (issuer_dict names ∅) as [iss|e]; [|simpl; congruence].
    destruct (getitem "notBefore" _) as [nb|e]; [|simpl; congruence].
    simpl. auto. }
  destruct Hshape as [Hdays Hst]. unfold alert_condition. rewrite Hdays, Hst.
  unfold MICROSECONDS_PER_DAY in *.
  destruct (0 <? timedelta_days expiry (now env)) eqn:Hpos; simpl.
  - apply Z.ltb_lt in Hpos. split; [split; [lia | reflexivity]|]. split.
    + destruct (timedelta_days expiry (now env) <=? 30) eqn:Hle.
      * apply Z.leb_le in Hle. split; [lia | reflexivity].
      * apply Z.leb_gt in Hle. split; [discriminate | lia].
    + intros utc_now offset Hnow. split; [lia | reflexivity].
  - apply Z.ltb_ge in Hpos. split; [split; [discriminate | lia]|]. split.
    + split; [discriminate | lia].
    + intros utc_now offset Hnow. split; [discriminate | lia].
Qed.

(** ** Stripping *)

Lemma rstrip_rstrip s : PyStr.rstrip (PyStr.rstrip s) = PyStr.rstrip s.
Proof.
  induction s as [|c s IH]; [reflexivity|]. simpl.
  destruct (PyStr.rstrip s) as [|c' r] eqn:Hr.
  - destruct (PyStr.isspace c) eqn:Hc; [reflexivity|]. simpl. rewrite Hc. reflexivity.
  - change (PyStr.rstrip (String c (String c' r)))
      with (match PyStr.rstrip (String c' r) with
            | EmptyString => if PyStr.isspace c then EmptyString else String c EmptyString
            | String a b => String c (String a b)
            end).
    rewrite IH. reflexivity.
Qed.

Lemma lstrip_head s :
  PyStr.lstrip s = EmptyString
  \/ exists c t, PyStr.lstrip s = String c t /\ PyStr.isspace c = false.
Proof.
  induction s as [|c s IH]; [left; reflexivity|]. simpl.
  destruct (PyStr.isspace c) eqn:Hc; [exact IH|]. right. eauto.
Qed.

Lemma rstrip_head c t :
  PyStr.isspace c = false -> exists r, PyStr.rstrip (String c t) = String c r.
Proof.
  intros Hc. simpl. destruct (PyStr.rstrip t); [rewrite Hc|]; eauto.
Qed.

Lemma strip_strip s : PyStr.strip (PyStr.strip s) = PyStr.strip s.
Proof.
  unfold PyStr.strip.
  destruct (lstrip_head s) as [-> | (c & t & -> & Hc)]; [reflexivity|].
  destruct (rstrip_head c t Hc) as [r Hr].
  assert (PyStr.lstrip (PyStr.rstrip (String c t)) = PyStr.rstrip (String c t)) as ->.
  { rewrite Hr. simpl. rewrite Hc. reflexivity. }
  apply rstrip_rstrip.
Qed.

(** ** The registry *)

Lemma run_op_registry op st st1 evs :
  registry_ok st -> run_op op st = Ok (st1, evs) -> registry_ok st1.
Proof.
  intros [Hnd Hnames] Hrun. split; [eapply run_op_domains; eassumption|].
  destruct op as [env field | field | env | env]; simpl in Hrun.
  - rewrite add_domain_spec in Hrun. simpl in Hrun.
    destruct (negb (String.eqb _ _)) eqn:Hne; simpl in Hrun;
      [|injection Hrun as <- _; exact Hnames].
    destruct (negb (in_domains _ _)); simpl in Hrun;
      [|injection Hrun as <- _; exact Hnames].
    assert (forall d, d ∈ domains st ++ [form_domain field] ->
                      d <> EmptyString /\ PyStr.strip d = d) as Hnew.
    { intros d [Hd | Hd]%elem_of_app; [auto|].
      apply list_elem_of_singleton in Hd. subst d. split.
      - apply negb_true_iff, String.eqb_neq in Hne. exact Hne.
      - apply strip_strip. }
    destruct (alerting env _); injection Hrun as <- _; exact Hnew.
  - unfold remove_domain in Hrun. destruct (in_domains _ _); simpl in Hrun;
      injection Hrun as <- _; [|exact Hnames].
    simpl. intros d Hd. apply Hnames.
    destruct (decide (d = form_domain field)) as [-> | Hne].
    + exfalso. exact (proj2 (list_remove_NoDup _ _ Hnd) Hd).
    + apply list_remove_other in Hd; assumption.
  - injection Hrun as <- _. exact Hnames.
  - destruct (check_domains_spec env st) as (ledger' & evs' & H' & _).
    rewrite H' in Hrun. injection Hrun as <- _. exact Hnames.
Qed.

(** X5.  In every reachable state the registry holds no name twice, no
    empty name, and no name with white space around it. *)
Theorem registry_names_clean (st : State) :
  reachable st -> registry_ok st.
Proof.
  induction 1 as [|op st st1 evs _ IH Hrun].
  - split; [constructor|]. intros d Hd. apply elem_of_nil in Hd. contradiction.
  - eapply run_op_registry; eassumption.
Qed.

Lemma registry_names_clean_witness : registry_ok notified_a_at_10.
Proof. exact (registry_names_clean notified_a_at_10 notified_a_at_10_reachable). Defined.

(** ** Ledger values *)

Lemma run_op_ledger_values op st st1 evs :
  ledger_values_ok st -> run_op op st = Ok (st1, evs) -> ledger_values_ok st1.
Proof.
  unfold ledger_values_ok.
  destruct op as [env field | field | env | env]; simpl; intros Hinv H d v Hv.
  - rewrite add_domain_spec in H. simpl in H.
    destruct (negb (String.eqb _ _) && negb (in_domains _ _));
      [|injection H as <- _; eauto].
    destruct (alerting env _) eqn:Ha; injection H as <- _; simpl in *; [|eauto].
    unfold recordSent in Hv.
    destruct (decide (form_domain field = d)) as [<- | Hne].
    + rewrite lookup_insert_eq in Hv. injection Hv as <-.
      apply alerting_days in Ha as (n & -> & Hn & _). eauto.
    + rewrite lookup_insert_ne in Hv by exact Hne. eauto.
  - unfold remove_domain in H. destruct (in_domains _ _); simpl in H;
      injection H as <- _; simpl in *; [|eauto].
    destruct (notifications_sent st !! form_domain field); [|eauto].
    unfold purge in Hv. apply lookup_delete_Some in Hv as [_ Hv]. eauto.
  - injection H as <- _. eauto.
  - destruct (check_domains_spec env st) as (ledger' & evs' & H' & _ & _ & Hl).
    rewrite H' in H. injection H as <- _. simpl in *.
    rewrite Hl in Hv. destruct (alerting env d) eqn:Ha.
    + destruct (bool_decide (d ∈ domains st)); simpl in Hv; [|eauto].
      injection Hv as <-. apply alerting_days in Ha as (n & -> & Hn & _). eauto.
    + rewrite andb_false_r in Hv. eauto.
Qed.

(** X6.  In every reachable state every ledger value is a countdown
    between 1 and 30. *)
Theorem ledger_holds_countdowns (st : State) :
  reachable st -> ledger_values_ok st.
Proof.
  induction 1 as [|op st st1 evs _ IH Hrun].
  - intros d v Hv. simpl in Hv. rewrite lookup_empty in Hv. discriminate.
  - eapply run_op_ledger_values; eassumption.
Qed.

Lemma ledger_holds_countdowns_witness : ledger_values_ok notified_a_at_10.
Proof. exact (ledger_holds_countdowns notified_a_at_10 notified_a_at_10_reachable). Defined.

(** ** Who is notified in a pass *)

Lemma get_ssl_info_domain env d : domain (get_ssl_info env d) = d.
Proof.
  destruct (get_ssl_info_cases env d) as [(info & Htry & ->) | (e & _ & ->)].
  - apply get_ssl_info_try_Ok in Htry as (n & _ & _ & Hd & _). exact Hd.
  - reflexivity.
Qed.

Lemma notified_app evs1 evs2 : notified (evs1 ++ evs2) = notified evs1 ++ notified evs2.
Proof. unfold notified. apply omap_app. Qed.

Lemma check_domain_notified env all d ledger ledger1 evs :
  check_domain env all d ledger = Ok (ledger1, evs) ->
  notified evs = if due env ledger d then [d] else [].
Proof.
  rewrite check_domain_spec. fold (due env ledger d). intros H.
  destruct (due env ledger d); injection H as <- <-; [|reflexivity].
  unfold notified. simpl. rewrite get_ssl_info_domain. reflexivity.
Qed.

Lemma due_same_entry env ledger ledger1 d :
  ledger1 !! d = ledger !! d -> due env ledger1 d = due env ledger d.
Proof.
  intros H. unfold due, not_yet_notified. rewrite H. reflexivity.
Qed.

Lemma filter_agree (f g : string -> bool) (l : list string) :
  (forall d, d ∈ l -> f d = g d) ->
  filter (fun d => f d = true) l = filter (fun d => g d = true) l.
Proof.
  induction l as [|x l IH]; intros H; [reflexivity|].
  assert (f x = g x) as Hx by (apply H; apply elem_of_cons; left; reflexivity).
  assert (filter (fun d => f d = true) l = filter (fun d => g d = true) l) as Hl
    by (apply IH; intros d Hd; apply H; apply elem_of_cons; right; exact Hd).
  rewrite !filter_cons, Hl, Hx.
  destruct (g x);
    [rewrite !decide_True by reflexivity | rewrite !decide_False by discriminate];
    reflexivity.
Qed.

Lemma check_loop_notified env all todo :
  forall ledger ledger' evs,
    NoDup todo ->
    check_loop env all todo ledger = Ok (ledger', evs) ->
    notified evs = filter (fun d => due env ledger d = true) todo.
Proof.
  induction todo as [|d0 rest IH]; intros ledger ledger' evs Hnd H.
  - injection H as <- <-. reflexivity.
  - apply NoDup_cons in Hnd as [Hfresh Hnd]. simpl in H.
    destruct (check_domain env all d0 ledger) as [[ledger1 evs1]|e] eqn:H1;
      [|discriminate]. simpl in H.
    destruct (check_loop env all rest ledger1) as [[ledger2 evs2]|e] eqn:H2;
      [|discriminate]. simpl in H. injection H as <- <-.
    rewrite notified_app, (check_domain_notified _ _ _ _ _ _ H1),
      (IH _ _ _ Hnd H2), filter_cons.
    assert (filter (fun d => due env ledger1 d = true) rest
            = filter (fun d => due env ledger d = true) rest) as ->.
    { apply filter_agree. intros d Hd. apply due_same_entry.
      rewrite (check_domain_ledger _ _ _ _ _ _ H1 d).
      rewrite bool_decide_eq_false_2 by (intros ->; contradiction). reflexivity. }
    destruct (due env ledger d0) eqn:Hdue.
    + rewrite decide_True by reflexivity. reflexivity.
    + rewrite decide_False by discriminate. reflexivity.
Qed.

(** X7.  A check pass over a registry without duplicates inspects every
    domain in order, sends for exactly the domains that are in the alert
    window and not yet recorded at their present countdown, in registry
    order, keeps the registry, and changes only the ledger entries of
    registered domains in the alert window. *)
Theorem check_domains_notifies_the_due (env : Env) (st : State) :
  NoDup (domains st) ->
  exists (ledger' : gmap string (option Z)) (evs : list Event),
    check_domains env st
    = Ok ({| domains := domains st; notifications_sent := ledger' |}, evs)
    /\ inspected evs = domains st
    /\ notified evs
       = filter (fun d => due env (notifications_sent st) d = true) (domains st)
    /\ forall d : string,
         ledger' !! d = if bool_decide (d ∈ domains st) && alerting env d
                        then Some (days_until_expiry (get_ssl_info env d))
                        else notifications_sent st !! d.
Proof.
  intros Hnd.
  destruct (check_domains_spec env st) as (ledger' & evs & H & Hi & _ & Hl).
  exists ledger', evs. split; [exact H|]. split; [exact Hi|]. split; [|exact Hl].
  unfold check_domains in H.
  destruct (check_loop env (domains st) (domains st) (notifications_sent st))
    as [[l e]|x] eqn:Hloop; [|discriminate].
  simpl in H. injection H as -> ->.
  eapply check_loop_notified; eassumption.
Qed.

Lemma check_domains_notifies_the_due_witness :
  exists (ledger' : gmap string (option Z)) (evs : list Event),
    check_domains (world_one_down) watching_a_and_b
    = Ok ({| domains := domains watching_a_and_b; notifications_sent := ledger' |}, evs)
    /\ inspected evs = ["a.example"; "b.example"]
    /\ notified evs = ["a.example"].
Proof.
  destruct (check_domains_notifies_the_due world_one_down watching_a_and_b)
    as (ledger' & evs & H & Hi & Hn & _).
  - apply (bool_decide_unpack (NoDup (domains watching_a_and_b))). vm_compute. exact I.
  - exists ledger', evs. split; [exact H|]. split; [exact Hi|]. exact Hn.
Defined.

(** ** A second pass in the same world *)

Lemma check_loop_quiet env all todo ledger :
  (forall d, d ∈ todo -> due env ledger d = false) ->
  check_loop env all todo ledger = Ok (ledger, map EvInspect todo).
Proof.
  induction todo as [|d0 rest IH]; intros Hq; [reflexivity|].
  simpl. rewrite check_domain_spec. fold (due env ledger d0).
  rewrite Hq by (apply elem_of_cons; left; reflexivity). simpl.
  rewrite IH; [reflexivity|].
  intros d Hd. apply Hq. apply elem_of_cons. right. exact Hd.
Qed.

(** X8.  A second check pass in the same world sends nothing and leaves
    the state as the first pass left it. *)
Theorem check_domains_twice (env : Env) (st st1 : State) (evs : list Event) :
  check_domains env st = Ok (st1, evs) ->
  check_domains env st1 = Ok (st1, map EvInspect (domains st1)).
Proof.
  intros H.
  destruct (check_domains_spec env st) as (ledger' & evs' & H' & _ & _ & Hl).
  rewrite H' in H. injection H as <- _.
  unfold check_domains. simpl. rewrite check_loop_quiet; [reflexivity|].
  intros d Hd. unfold due. destruct (alerting env d) eqn:Ha; [|reflexivity].
  unfold not_yet_notified. rewrite Hl, Ha.
  rewrite bool_decide_eq_true_2 by exact Hd. simpl.
  rewrite bool_decide_eq_true_2 by reflexivity. reflexivity.
Qed.

Lemma check_domains_twice_witness :
  check_domains (world_days 10 true) notified_a_at_10
  = Ok (notified_a_at_10, map EvInspect (domains notified_a_at_10)).
Proof.
  apply (check_domains_twice (world_days 10 true) watching_a notified_a_at_10
           [EvInspect "a.example"; EvReport;
            EvNotify (get_ssl_info (world_days 10 true) "a.example")
              (Some "%PDF-1.4") (EmailSent 1 "a.example")]).
  reflexivity.
Defined.

(** ** Adding twice, adding and removing *)

(** X9.  Adding a domain a second time, in any world, changes nothing,
    inspects nothing and sends nothing. *)
Theorem add_domain_twice (env env' : Env) (field : option string)
                         (st st1 : State) (resp : Response) (evs : list Event) :
  add_domain env field st = Ok (st1, resp, evs) ->
  add_domain env' field st1 = Ok (st1, RespDomains (domains st1), []).
Proof.
  intros H. rewrite add_domain_spec in H. rewrite add_domain_spec.
  simpl in *.
  destruct (negb (String.eqb (form_domain field) EmptyString)) eqn:Hne; simpl in *.
  - unfold in_domains in *.
    destruct (bool_decide (form_domain field ∈ domains st)) eqn:Hin; simpl in H.
    + injection H as <- _ _. rewrite Hin. reflexivity.
    + assert (form_domain field ∈ domains st ++ [form_domain field]) as Hnow
        by (apply elem_of_app; right; apply list_elem_of_singleton; reflexivity).
      destruct (alerting env _); injection H as <- _ _; simpl;
        rewrite bool_decide_eq_true_2 by exact Hnow; reflexivity.
  - injection H as <- _ _. reflexivity.
Qed.

Lemma add_domain_twice_witness :
  add_domain (world_days 9 true) (Some "a.example") notified_a_at_10
  = Ok (notified_a_at_10, RespDomains (domains notified_a_at_10), []).
Proof.
  apply (add_domain_twice (world_days 10 false) (world_days 9 true)
           (Some "a.example") initial_state notified_a_at_10
           (RespDomains ["a.example"])
           [EvInspect "a.example"; EvReport;
            EvNotify (get_ssl_info (world_days 10 false) "a.example")
              (Some "%PDF-1.4") (SendFailed smtp_refused)]).
  reflexivity.
Defined.

Lemma list_remove_last d ds : d ∉ ds -> list_remove d (ds ++ [d]) = ds.
Proof.
  induction ds as [|x ds IH]; intros Hd; simpl.
  - rewrite bool_decide_eq_true_2 by reflexivity. reflexivity.
  - apply not_elem_of_cons in Hd as [Hne Hd].
    rewrite bool_decide_eq_false_2 by congruence. rewrite IH by exact Hd.
    reflexivity.
Qed.

(** X10.  In a reachable state, adding a domain that is not registered and
    then removing it gives back the state from before, ledger included. *)
Theorem add_then_remove_restores (env : Env) (field : option string)
    (st st1 : State) (resp : Response) (evs : list Event) :
  reachable st ->
  form_domain field ∉ domains st ->
  add_domain env field st = Ok (st1, resp, evs) ->
  remove_domain field st1 = Ok (st, RespDomains (domains st), []).
Proof.
  intros Hreach Hfresh Hadd.
  pose proof (reachable_ledger st Hreach) as Hinv.
  assert (notifications_sent st !! form_domain field = None) as Hnone.
  { destruct (notifications_sent st !! form_domain field) eqn:Hl; [|reflexivity].
    exfalso. apply Hfresh, Hinv. eauto. }
  rewrite add_domain_spec in Hadd. simpl in Hadd.
  destruct st as [ds ledger]. simpl in *.
  destruct (negb (String.eqb (form_domain field) EmptyString)); simpl in Hadd.
  - unfold in_domains in Hadd.
    rewrite bool_decide_eq_false_2 in Hadd by exact Hfresh. simpl in Hadd.
    assert (form_domain field ∈ ds ++ [form_domain field]) as Hnow
      by (apply elem_of_app; right; apply list_elem_of_singleton; reflexivity).
    destruct (alerting env _); injection Hadd as <- _ _;
      unfold remove_domain, in_domains; simpl;
      rewrite bool_decide_eq_true_2 by exact Hnow;
      rewrite list_remove_last by exact Hfresh.
    + unfold recordSent, purge. rewrite lookup_insert_eq, delete_insert_eq.
      rewrite delete_id by exact Hnone. reflexivity.
    + rewrite Hnone. reflexivity.
  - injection Hadd as <- _ _. unfold remove_domain, in_domains. simpl.
    rewrite bool_decide_eq_false_2 by exact Hfresh. reflexivity.
Qed.

Lemma add_then_remove_restores_witness :
  remove_domain (Some "b.example")
    {| domains := ["a.example"; "b.example"];
       notifications_sent := <["b.example" := Some 10]> {["a.example" := Some 10]} |}
  = Ok (notified_a_at_10, RespDomains (domains notified_a_at_10), []).
Proof.
  apply (add_then_remove_restores (world_days 10 true) (Some "b.example")
           notified_a_at_10 _
           (RespDomains ["a.example"; "b.example"])
           [EvInspect "b.example"; EvReport;
            EvNotify (get_ssl_info (world_days 10 true) "b.example")
              (Some "%PDF-1.4") (EmailSent 1 "b.example")]).
  - exact notified_a_at_10_reachable.
  - apply (bool_decide_unpack (form_domain (Some "b.example") ∉ domains notified_a_at_10)).
    vm_compute. exact I.
  - reflexivity.
Defined.

(** ** What a send reports *)

(** X11.  With no recipients nothing is sent.  A send is reported only
    when the SMTP session took a message addressed to all loaded
    recipients, built from the snapshot and carrying the given
    attachment.  For a snapshot without expiry date the function ends in
    the logged [KeyError]. *)
Theorem send_email_notification_outcomes (env : Env) (info : SslInfo)
                                         (pdf : option string) :
  (load_emails env = [] -> send_email_notification env info pdf = NoRecipients)
  /\ (forall (k : nat) (name : string),
        send_email_notification env info pdf = EmailSent k name ->
        load_emails env <> []
        /\ k = length (load_emails env)
        /\ name = domain info
        /\ exists (expiry : string) (iss : gmap string string),
             expiry_date info = Some expiry
             /\ issuer info = Some iss
             /\ smtp_send env {| msg_to := load_emails env;
                                 msg_domain := domain info;
                                 msg_days_left := days_until_expiry info;
                                 msg_expiry_date := expiry;
                                 msg_issuer := organization iss;
                                 msg_attachment := pdf |} = Ok tt)
  /\ (load_emails env <> [] -> expiry_date info = None ->
      send_email_notification env info pdf = SendFailed (KeyError "expiry_date")).
Proof.
  unfold send_email_notification, send_email_notification_try, getitem.
  unfold mbind, result_bind.
  split; [intros ->; reflexivity|]. split.
  - intros k name H. destruct (load_emails env) as [|a l] eqn:Hl; [discriminate|].
    destruct (expiry_date info) as [expiry|]; [|discriminate].
    destruct (issuer info) as [iss|]; [|discriminate].
    destruct (smtp_send env _) as [[]|e] eqn:Hsmtp; [|discriminate].
    injection H as <- <-. split; [discriminate|]. eauto 10.
  - intros Hne ->. destruct (load_emails env); [contradiction|reflexivity].
Qed.

Lemma send_email_notification_outcomes_witness :
  send_email_notification world_unreachable
    (get_ssl_info world_unreachable "a.example") None
  = SendFailed (KeyError "expiry_date").
Proof.
  apply (proj2 (proj2 (send_email_notification_outcomes world_unreachable
                         (get_ssl_info world_unreachable "a.example") None))).
  - discriminate.
  - reflexivity.
Defined.

(** ** Sorting the dashboard *)

Lemma insert_by_key_perm x l : Permutation (insert_by_key x l) (x :: l).
Proof.
  induction l as [|y l IH]; simpl; [reflexivity|].
  destruct (sort_key x <=? sort_key y); [reflexivity|].
  rewrite IH. apply perm_swap.
Qed.

Lemma insert_by_key_sorted x l :
  StronglySorted (fun a b => sort_key a <= sort_key b) l ->
  StronglySorted (fun a b => sort_key a <= sort_key b) (insert_by_key x l).
Proof.
  induction 1 as [|y l Hs IH Hy]; simpl.
  - constructor; constructor.
  - destruct (sort_key x <=? sort_key y) eqn:Hle.
    + apply Z.leb_le in Hle. constructor; [constructor; assumption|].
      constructor; [exact Hle|].
      eapply Forall_impl; [exact Hy|]. simpl. intros; lia.
    + apply Z.leb_gt in Hle. constructor; [exact IH|].
      rewrite (insert_by_key_perm x l). constructor; [lia | exact Hy].
Qed.

Lemma insert_by_key_stable (k : Z) x l :
  filter (fun a => sort_key a = k) (insert_by_key x l)
  = filter (fun a => sort_key a = k) (x :: l).
Proof.
  induction l as [|y l IH]; simpl; [reflexivity|].
  destruct (sort_key x <=? sort_key y) eqn:Hle; [reflexivity|].
  apply Z.leb_gt in Hle.
  rewrite (filter_cons _ y), IH, !filter_cons.
  repeat case_decide; try reflexivity; lia.
Qed.

Lemma sort_by_key_perm l : Permutation (sort_by_key l) l.
Proof.
  induction l as [|x l IH]; [reflexivity|].
  simpl. rewrite insert_by_key_perm, IH. reflexivity.
Qed.

Lemma sort_by_key_sorted l :
  StronglySorted (fun a b => sort_key a <= sort_key b) (sort_by_key l).
Proof.
  induction l as [|x l IH]; [constructor|].
  simpl. apply insert_by_key_sorted. exact IH.
Qed.

(** X12.  The dashboard order is a stable sort by the key of line 278: a
    permutation of the snapshots, ascending in the key, snapshots of
    equal key in their original order. *)
Theorem sort_by_key_stable_sort (l : list SslInfo) :
  Permutation (sort_by_key l) l
  /\ StronglySorted (fun a b => sort_key a <= sort_key b) (sort_by_key l)
  /\ forall k : Z,
       filter (fun a => sort_key a = k) (sort_by_key l)
       = filter (fun a => sort_key a = k) l.
Proof.
  split; [apply sort_by_key_perm|]. split; [apply sort_by_key_sorted|].
  intros k. induction l as [|x l IH]; [reflexivity|].
  simpl. rewrite insert_by_key_stable, !filter_cons, IH. reflexivity.
Qed.

(** ** When the dashboard fails *)

Lemma count_expiring_Raise l :
  Exists (fun x => days_until_expiry x = None) l ->
  count_expiring l = Raise TypeError_le.
Proof.
  induction l as [|x l IH]; intros H; [inversion H|]. simpl.
  destruct (days_until_expiry x) as [n|] eqn:Hx; [|reflexivity]. simpl.
  rewrite IH; [reflexivity|]. inversion H; subst; [congruence | assumption].
Qed.

Lemma count_status_perm s l1 l2 :
  Permutation l1 l2 -> count_status s l1 = count_status s l2.
Proof. intros H. unfold count_status. rewrite H. reflexivity. Qed.

Lemma snapshots_well_shaped env ds : Forall well_shaped (map (get_ssl_info env) ds).
Proof.
  apply Forall_forall. intros x Hx. apply list_elem_of_fmap in Hx as (d & -> & _).
  exact (get_ssl_info_shape env d).
Qed.

Lemma stats_without_errors l :
  Forall well_shaped l -> Forall (fun x => status x <> error) l ->
  exists n : nat,
    count_expiring l = Ok n
    /\ (length l - count_status valid l <= n <= length l)%nat
    /\ count_status error l = O.
Proof.
  unfold count_status.
  induction l as [|x l IH]; intros Hw Hok.
  - exists O. repeat split; simpl; lia.
  - apply Forall_cons in Hw as [Hx Hw]. apply Forall_cons in Hok as [Hxok Hok].
    destruct (IH Hw Hok) as (n & Hn & Hb & He).
    destruct Hx as [[Herr _] | (d & Hd & Hst)]; [contradiction|].
    simpl. rewrite Hd, Hn. simpl. rewrite !filter_cons, Hst.
    exists (if d <=? 30 then S n else n). split; [reflexivity|].
    destruct (0 <? d) eqn:Hpos; repeat case_decide; try discriminate;
      simpl in *; try congruence.
    + destruct (d <=? 30); lia.
    + apply Z.ltb_ge in Hpos.
      replace (d <=? 30) with true by (symmetry; apply Z.leb_le; lia). lia.
Qed.

(** X14.  When the snapshot of some registered domain has status error,
    [index] raises the [TypeError] of comparing [None] with 30. *)
Theorem index_fails_on_an_error (env : Env) (st : State) (d : string) :
  d ∈ domains st ->
  status (get_ssl_info env d) = error ->
  index env st = Raise TypeError_le.
Proof.
  intros Hd Herr. unfold index, dashboard_stats.
  rewrite count_expiring_Raise; [reflexivity|].
  rewrite (sort_by_key_perm _).
  apply Exists_exists. exists (get_ssl_info env d). split.
  - apply list_elem_of_fmap. eauto.
  - destruct (get_ssl_info_shape env d) as [[_ Hnone] | (n & _ & Hst)];
      [exact Hnone|].
    rewrite Hst in Herr. destruct (0 <? n); discriminate.
Qed.

Lemma index_fails_on_an_error_witness :
  index world_one_down watching_a_and_b = Raise TypeError_le.
Proof.
  apply (index_fails_on_an_error world_one_down watching_a_and_b "b.example").
  - apply (bool_decide_unpack ("b.example" ∈ domains watching_a_and_b)).
    vm_compute. exact I.
  - reflexivity.
Defined.

(** X15.  When no registered domain is in error, [index] returns the
    snapshots sorted, one per domain, with zero errors counted, and the
    count of expiring certificates includes every one that is not
    valid. *)
Theorem index_renders (env : Env) (st : State) :
  (forall d : string, d ∈ domains st -> status (get_ssl_info env d) <> error) ->
  exists dash : Dashboard,
    index env st = Ok dash
    /\ dash_domains dash = domains st
    /\ dash_emails dash = load_emails env
    /\ Permutation (dash_ssl_info dash) (map (get_ssl_info env) (domains st))
    /\ StronglySorted (fun a b => sort_key a <= sort_key b) (dash_ssl_info dash)
    /\ stat_total (dash_stats dash) = length (domains st)
    /\ stat_errors (dash_stats dash) = O
    /\ (stat_total (dash_stats dash) - stat_valid (dash_stats dash)
        <= stat_expiring (dash_stats dash) <= stat_total (dash_stats dash))%nat.
Proof.
  intros Hok.
  pose proof (sort_by_key_perm (map (get_ssl_info env) (domains st))) as Hp.
  pose proof (sort_by_key_sorted (map (get_ssl_info env) (domains st))) as Hs.
  assert (Forall well_shaped (sort_by_key (map (get_ssl_info env) (domains st)))) as Hw
    by (rewrite Hp; apply snapshots_well_shaped).
  assert (Forall (fun x => status x <> error)
            (sort_by_key (map (get_ssl_info env) (domains st)))) as Hne.
  { rewrite Hp. apply Forall_forall. intros x Hx.
    apply list_elem_of_fmap in Hx as (d & -> & Hd). auto. }
  destruct (stats_without_errors _ Hw Hne) as (n & Hn & Hb & He).
  unfold index, dashboard_stats. rewrite Hn. simpl.
  eexists. split; [reflexivity|]. simpl.
  assert (length (sort_by_key (map (get_ssl_info env) (domains st)))
          = length (domains st)) as Hlen
    by (rewrite Hp, length_map; reflexivity).
  rewrite Hlen in *. repeat split; try assumption; lia.
Qed.

Lemma index_renders_witness :
  exists dash : Dashboard,
    index (world_days 10 true) watching_a = Ok dash
    /\ stat_total (dash_stats dash) = 1%nat
    /\ stat_errors (dash_stats dash) = O.
Proof.
  destruct (index_renders (world_days 10 true) watching_a)
    as (dash & H & _ & _ & _ & _ & Ht & He & _).
  - intros d Hd. apply list_elem_of_singleton in Hd. subst d. discriminate.
  - exists dash. split; [exact H|]. split; [exact Ht | exact He].
Defined.

Lemma sorted_lookup_le (l : list SslInfo) :
  StronglySorted (fun a b => sort_key a <= sort_key b) l ->
  forall (i j : nat) (a b : SslInfo),
    (i < j)%nat -> l !! i = Some a -> l !! j = Some b -> sort_key a <= sort_key b.
Proof.
  induction 1 as [|x l Hs IH Hx]; intros i j a b Hij Ha Hb.
  - rewrite lookup_nil in Ha. discriminate.
  - destruct j as [|j]; [lia|]. simpl in Hb. destruct i as [|i].
    + injection Ha as <-. apply list_elem_of_lookup_2 in Hb.
      rewrite Forall_forall in Hx. apply Hx. exact Hb.
    + simpl in Ha. apply (IH i j); [lia | assumption | assumption].
Qed.

(** X13.  A snapshot with no countdown or with countdown 0 comes after
    every snapshot whose countdown is not 0 and below 999. *)
Theorem zero_days_sort_last (l : list SslInfo) (i j : nat) (x y : SslInfo) (n : Z) :
  sort_by_key l !! i = Some x ->
  sort_by_key l !! j = Some y ->
  days_until_expiry x = None \/ days_until_expiry x = Some 0 ->
  days_until_expiry y = Some n -> n <> 0 -> n < 999 ->
  (j < i)%nat.
Proof.
  intros Hx Hy Hzero Hn Hn0 Hlt.
  assert (sort_key x = 999) as Hkx
    by (unfold sort_key; destruct Hzero as [-> | ->]; reflexivity).
  assert (sort_key y = n) as Hky.
  { unfold sort_key. rewrite Hn.
    destruct (n =? 0) eqn:H0; [apply Z.eqb_eq in H0; contradiction | reflexivity]. }
  pose proof (sort_by_key_sorted l) as Hs.
  destruct (Nat.lt_trichotomy j i) as [Hlt' | [-> | Hgt]]; [exact Hlt'| |].
  - rewrite Hx in Hy. injection Hy as ->. lia.
  - pose proof (sorted_lookup_le _ Hs i j x y Hgt Hx Hy). lia.
Qed.

Lemma zero_days_sort_last_witness :
  sort_by_key [get_ssl_info (world_days 0 true) "today.example";
               get_ssl_info world_unreachable "down.example";
               get_ssl_info (world_days 40 true) "later.example"]
  = [get_ssl_info (world_days 40 true) "later.example";
     get_ssl_info (world_days 0 true) "today.example";
     get_ssl_info world_unreachable "down.example"]
  /\ (0 < 1)%nat.
Proof.
  split; [reflexivity|].
  apply (zero_days_sort_last
           [get_ssl_info (world_days 0 true) "today.example";
            get_ssl_info world_unreachable "down.example";
            get_ssl_info (world_days 40 true) "later.example"]
           1 0
           (get_ssl_info (world_days 0 true) "today.example")
           (get_ssl_info (world_days 40 true) "later.example") 40).
  - reflexivity.
  - reflexivity.
  - right. reflexivity.
  - reflexivity.
  - discriminate.
  - reflexivity.
Defined.

Lemma valid_needs_a_full_day_witness :
  status (get_ssl_info world_utc_minus_8 "a.example") = valid
  /\ days_until_expiry (get_ssl_info world_utc_minus_8 "a.example") = Some 1
  /\ MICROSECONDS_PER_DAY + - (8 * 3600 * 1000000) <= 20 * 3600 * 1000000 - 0
  /\ status (get_ssl_info (world_days 0 true) "a.example") = expired.
Proof.
  destruct (valid_needs_a_full_day world_utc_minus_8 "a.example" sample_cert
              "Jun  1 12:00:00 2030 GMT" (20 * 3600 * 1000000)
              eq_refl eq_refl eq_refl) as (_ & _ & Hzone).
  - discriminate.
  - destruct (Hzone 0 (- (8 * 3600 * 1000000)) eq_refl) as [Hto Hfrom].
    assert (MICROSECONDS_PER_DAY + - (8 * 3600 * 1000000) <= 20 * 3600 * 1000000 - 0)
      as Hle by (unfold MICROSECONDS_PER_DAY; lia).
    split; [exact (Hfrom Hle)|]. split; [reflexivity|]. split; [exact Hle|].
    reflexivity.
Defined.

(** ** The report *)

Lemma length_slice_to n s : (String.length (PyStr.slice_to n s) <= n)%nat.
Proof.
  revert s. induction n as [|n IH]; intros [|c s]; simpl; try lia.
  specialize (IH s). lia.
Qed.

Lemma length_append_string a b :
  String.length (a +:+ b) = (String.length a + String.length b)%nat.
Proof. induction a as [|c a IH]; simpl; [reflexivity|]. rewrite IH. reflexivity. Qed.

Lemma domain_cell_short s :
  (String.length (PyStr.slice_to 20 s
                  +:+ (if (20 <? String.length s)%nat then "..." else "")) <= 23)%nat.
Proof.
  rewrite length_append_string. pose proof (length_slice_to 20 s).
  destruct (20 <? String.length s)%nat;
    [change (String.length "...") with 3%nat
    |change (String.length "") with 0%nat]; lia.
Qed.

Lemma table_row_Ok info :
  is_Some (days_until_expiry info) ->
  exists cell rest,
    table_row info = Ok (cell :: rest)
    /\ (String.length cell <= 23)%nat /\ length rest = 4%nat.
Proof.
  intros [n Hn]. unfold table_row. rewrite Hn. simpl.
  destruct (error_text info) as [[|c t]|]; eexists _, _;
    (split; [reflexivity|]); (split; [apply domain_cell_short | reflexivity]).
Qed.

Lemma table_rows_Ok l :
  Forall (fun x => is_Some (days_until_expiry x)) l ->
  exists rows,
    table_rows l = Ok rows
    /\ length rows = length l
    /\ Forall (fun row => exists cell rest,
                 row = cell :: rest /\ (String.length cell <= 23)%nat
                 /\ length rest = 4%nat) rows.
Proof.
  induction 1 as [|x l Hx Hl (rows & Hrows & Hlen & Hall)].
  - exists []. repeat split. constructor.
  - destruct (table_row_Ok x Hx) as (cell & rest & Hrow & Hc & Hr).
    exists ((cell :: rest) :: rows). simpl. rewrite Hrow, Hrows. simpl.
    split; [reflexivity|]. split; [congruence|].
    constructor; [eauto 10 | exact Hall].
Qed.

Lemma count_expiring_Some l :
  Forall (fun x => is_Some (days_until_expiry x)) l ->
  exists n : nat, count_expiring l = Ok n.
Proof.
  induction 1 as [|x l [d Hd] Hl (n & Hn)]; [exists O; reflexivity|].
  simpl. rewrite Hd, Hn. simpl. eauto.
Qed.

Lemma report_fails_without_countdown (build : ReportData -> result string)
                                      (l : list SslInfo) :
  Exists (fun x => days_until_expiry x = None) l ->
  generate_pdf_report_from build l = None.
Proof.
  intros Hex. unfold generate_pdf_report_from, generate_pdf_report_try, report_data.
  rewrite (count_expiring_Raise l Hex).
  destruct (table_rows l); reflexivity.
Qed.

(** X16.  The report data exist exactly when every snapshot has a
    countdown: then the table has one row per snapshot under the header,
    each of five cells with a domain cell of at most 23 characters; with
    one snapshot lacking a countdown [generate_pdf_report] returns
    [None]. *)
Theorem report_needs_every_countdown (build : ReportData -> result string)
                                     (l : list SslInfo) :
  (Forall (fun x => is_Some (days_until_expiry x)) l ->
   exists data : ReportData,
     report_data l = Ok data
     /\ generate_pdf_report_try build l = build data
     /\ length (table_data data) = S (length l)
     /\ Forall (fun row => exists cell rest,
                  row = cell :: rest /\ (String.length cell <= 23)%nat
                  /\ length rest = 4%nat) (table_data data))
  /\ (Exists (fun x => days_until_expiry x = None) l ->
      generate_pdf_report_from build l = None).
Proof.
  split.
  - intros Hall.
    destruct (table_rows_Ok l Hall) as (rows & Hrows & Hlen & Hcells).
    destruct (count_expiring_Some l Hall) as (n & Hn).
    unfold generate_pdf_report_try, report_data. rewrite Hrows, Hn. simpl.
    eexists. split; [reflexivity|]. split; [reflexivity|]. simpl.
    split; [congruence|]. constructor; [|exact Hcells].
    exists "Domain", ["Status"; "Days Left"; "Expiry Date"; "Issuer"].
    repeat split. simpl. lia.
  - apply report_fails_without_countdown.
Qed.

Lemma report_needs_every_countdown_witness :
  generate_pdf_report_from (fun _ => Ok "%PDF-1.4")
    (map (get_ssl_info world_one_down) ["a.example"; "b.example"]) = None.
Proof.
  apply (proj2 (report_needs_every_countdown (fun _ => Ok "%PDF-1.4")
                  (map (get_ssl_info world_one_down) ["a.example"; "b.example"]))).
  apply Exists_cons_tl. apply Exists_cons_hd. reflexivity.
Defined.

(** X17.  In a world whose renderer is the code of [generate_pdf_report],
    one registered domain in error leaves every report empty: the export
    answers 500 and the alerts of a check pass go out without
    attachment. *)
Theorem one_error_drops_the_attachment
    (build : ReportData -> result string) (env : Env) (st : State) (d : string) :
  world_renders_with build env ->
  d ∈ domains st ->
  status (get_ssl_info env d) = error ->
  generate_pdf_report env (domains st) = None
  /\ export_pdf env st = inr 500
  /\ forall (d' : string) (ledger : gmap string (option Z)),
       due env ledger d' = true ->
       check_domain env (domains st) d' ledger
       = Ok (recordSent d' (days_until_expiry (get_ssl_info env d')) ledger,
             [EvInspect d'; EvReport;
              EvNotify (get_ssl_info env d') None
                (send_email_notification env (get_ssl_info env d') None)]).
Proof.
  intros Hworld Hd Herr.
  assert (generate_pdf_report env (domains st) = None) as Hnone.
  { unfold generate_pdf_report. rewrite Hworld.
    apply report_fails_without_countdown.
    apply Exists_exists. exists (get_ssl_info env d). split.
    - apply list_elem_of_fmap. eauto.
    - destruct (get_ssl_info_shape env d) as [[_ Hn] | (n & _ & Hst)]; [exact Hn|].
      rewrite Hst in Herr. destruct (0 <? n); discriminate. }
  split; [exact Hnone|]. split; [unfold export_pdf; rewrite Hnone; reflexivity|].
  intros d' ledger Hdue. rewrite check_domain_spec. fold (due env ledger d').
  rewrite Hdue, Hnone. reflexivity.
Qed.

Lemma one_error_drops_the_attachment_witness :
  export_pdf world_one_down watching_a_and_b = inr 500
  /\ check_domain world_one_down (domains watching_a_and_b) "a.example" ∅
     = Ok (recordSent "a.example" (Some 10) ∅,
           [EvInspect "a.example"; EvReport;
            EvNotify (get_ssl_info world_one_down "a.example") None
              (send_email_notification world_one_down
                 (get_ssl_info world_one_down "a.example") None)]).
Proof.
  destruct (one_error_drops_the_attachment (fun _ => Ok "%PDF-1.4") world_one_down
              watching_a_and_b "b.example") as (_ & Hexport & Hcheck).
  - intros l. reflexivity.
  - apply (bool_decide_unpack ("b.example" ∈ domains watching_a_and_b)).
    vm_compute. exact I.
  - reflexivity.
  - split; [exact Hexport|]. apply (Hcheck "a.example" ∅). reflexivity.
Defined.

(** ** The scheduler and the registry *)








(** ** Lower case *)

Lemma lower_char_facts c :
  PyStr.lower_char (PyStr.lower_char c) = PyStr.lower_char c
  /\ PyStr.isspace (PyStr.lower_char c) = PyStr.isspace c.
Proof.
  destruct c as [[] [] [] [] [] [] [] []]; vm_compute; split; reflexivity.
Qed.

Lemma lower_lower s : PyStr.lower (PyStr.lower s) = PyStr.lower s.
Proof.
  induction s as [|c s IH]; simpl; [reflexivity|].
  rewrite IH, (proj1 (lower_char_facts c)). reflexivity.
Qed.

Lemma lower_lstrip s : PyStr.lstrip (PyStr.lower s) = PyStr.lower (PyStr.lstrip s).
Proof.
  induction s as [|c s IH]; simpl; [reflexivity|].
  rewrite (proj2 (lower_char_facts c)). destruct (PyStr.isspace c); [exact IH|reflexivity].
Qed.

Lemma lower_rstrip s : PyStr.rstrip (PyStr.lower s) = PyStr.lower (PyStr.rstrip s).
Proof.
  induction s as [|c s IH]; simpl; [reflexivity|].
  rewrite IH, (proj2 (lower_char_facts c)).
  destruct (PyStr.rstrip s); simpl; [destruct (PyStr.isspace c)|]; reflexivity.
Qed.

Lemma lower_strip s : PyStr.strip (PyStr.lower s) = PyStr.lower (PyStr.strip s).
Proof. unfold PyStr.strip. rewrite lower_lstrip, lower_rstrip. reflexivity. Qed.

Lemma form_email_normal field :
  Emails.form_email (Some (Emails.form_email field)) = Emails.form_email field.
Proof.
  unfold Emails.form_email. simpl.
  rewrite lower_strip, strip_strip, lower_lower. reflexivity.
Qed.

(** ** The recipients file *)

Lemma save_emails_then_load (w : Emails.Write) (emails : list string)
                            (f : Emails.File) :
  Emails.load_emails (Emails.save_emails w emails f)
  = match w with
    | Emails.Written => emails
    | Emails.OpenFailed _ => Emails.load_emails f
    | Emails.DumpFailed _ => []
    end.
Proof. destruct w; reflexivity. Qed.

(** X19.  [add_email] shows the old list or the old list with the
    normalised address at its end; a list without duplicates stays so;
    the file holds the shown list when the write went through, the old
    list when the file could not be opened, and nothing when the dump
    failed. *)
Theorem add_email_appends_once (w : Emails.Write) (field : option string)
                               (f : Emails.File) :
  let email := Emails.form_email field in
  let '(f1, shown) := Emails.add_email w field f in
  (email <> EmptyString -> email ∈ shown)
  /\ (NoDup (Emails.load_emails f) -> NoDup shown)
  /\ (shown = Emails.load_emails f \/ shown = Emails.load_emails f ++ [email])
  /\ (w = Emails.Written -> Emails.load_emails f1 = shown)
  /\ (forall e, w = Emails.OpenFailed e ->
                Emails.load_emails f1 = Emails.load_emails f)
  /\ (forall e, w = Emails.DumpFailed e -> shown <> Emails.load_emails f ->
                Emails.load_emails f1 = []).
Proof.
  unfold Emails.add_email. simpl.
  destruct (String.eqb (Emails.form_email field) EmptyString) eqn:Hempty; simpl.
  - apply String.eqb_eq in Hempty. repeat split; try congruence; tauto.
  - case_bool_decide as Hin; simpl; [repeat split; try congruence; tauto|].
    split; [intros _; apply elem_of_app; right;
            apply list_elem_of_singleton; reflexivity|].
    split.
    { intros Hnd. apply NoDup_app. split; [exact Hnd|].
      split; [|apply NoDup_singleton].
      intros x Hx Hx'. apply list_elem_of_singleton in Hx'. congruence. }
    split; [right; reflexivity|].
    rewrite save_emails_then_load.
    split; [intros ->; reflexivity|].
    split; [intros e ->; reflexivity | intros e -> _; reflexivity].
Qed.

Lemma add_email_appends_once_witness :
  "dev@example.com" ∈ snd (Emails.add_email (Emails.OpenFailed timed_out)
                             (Some " Dev@Example.com")
                             (Emails.Object (Some ["ops@example.com"])))
  /\ Emails.load_emails
       (fst (Emails.add_email (Emails.OpenFailed timed_out)
               (Some " Dev@Example.com")
               (Emails.Object (Some ["ops@example.com"]))))
     = ["ops@example.com"].
Proof.
  pose proof (add_email_appends_once (Emails.OpenFailed timed_out)
                (Some " Dev@Example.com")
                (Emails.Object (Some ["ops@example.com"]))) as H.
  simpl in H. destruct H as (Hin & _ & _ & _ & Hopen & _).
  split; [apply Hin; discriminate | exact (Hopen timed_out eq_refl)].
Defined.

(** X20.  Once an address is stored, adding it again in any spelling that
    strips and lowers to the same text changes nothing. *)
Theorem add_email_any_spelling (w : Emails.Write) (field field' : option string)
                               (f : Emails.File) :
  Emails.form_email field' = Emails.form_email field ->
  let '(f1, shown) := Emails.add_email Emails.Written field f in
  Emails.add_email w field' f1 = (f1, shown).
Proof.
  intros Hsame. unfold Emails.add_email. rewrite Hsame.
  destruct (String.eqb (Emails.form_email field) EmptyString) eqn:Hempty; simpl;
    [reflexivity|].
  case_bool_decide as Hin; simpl.
  - rewrite bool_decide_eq_true_2 by exact Hin. reflexivity.
  - rewrite bool_decide_eq_true_2; [reflexivity|].
    apply elem_of_app. right. apply list_elem_of_singleton. reflexivity.
Qed.

Lemma add_email_any_spelling_witness :
  Emails.add_email (Emails.OpenFailed timed_out) (Some "  OPS@Example.COM ")
    (Emails.Object (Some ["ops@example.com"]))
  = (Emails.Object (Some ["ops@example.com"]), ["ops@example.com"]).
Proof.
  exact (add_email_any_spelling (Emails.OpenFailed timed_out)
           (Some "ops@example.com") (Some "  OPS@Example.COM ")
           Emails.Missing eq_refl).
Defined.

(** X21.  Adding an address that is not in the list and removing it again
    gives back the list from before. *)
Theorem add_then_remove_email (field : option string) (f : Emails.File) :
  Emails.form_email field ∉ Emails.load_emails f ->
  let '(f1, _) := Emails.add_email Emails.Written field f in
  Emails.load_emails (fst (Emails.remove_email Emails.Written field f1))
  = Emails.load_emails f
  /\ snd (Emails.remove_email Emails.Written field f1) = Emails.load_emails f.
Proof.
  intros Hfresh. unfold Emails.add_email.
  rewrite (bool_decide_eq_false_2 _ Hfresh).
  destruct (String.eqb (Emails.form_email field) EmptyString); simpl.
  - unfold Emails.remove_email. rewrite (bool_decide_eq_false_2 _ Hfresh).
    split; reflexivity.
  - unfold Emails.remove_email. simpl.
    rewrite bool_decide_eq_true_2
      by (apply elem_of_app; right; apply list_elem_of_singleton; reflexivity).
    simpl. rewrite list_remove_last by exact Hfresh. split; reflexivity.
Qed.

Lemma add_then_remove_email_witness :
  Emails.load_emails
    (fst (Emails.remove_email Emails.Written (Some "Dev@Example.com")
            (Emails.Object (Some ["ops@example.com"; "dev@example.com"]))))
  = ["ops@example.com"]
  /\ snd (Emails.remove_email Emails.Written (Some "Dev@Example.com")
            (Emails.Object (Some ["ops@example.com"; "dev@example.com"])))
     = ["ops@example.com"].
Proof.
  apply (add_then_remove_email (Some "Dev@Example.com")
           (Emails.Object (Some ["ops@example.com"]))).
  apply (bool_decide_unpack
           (Emails.form_email (Some "Dev@Example.com")
            ∉ Emails.load_emails (Emails.Object (Some ["ops@example.com"])))).
  vm_compute. exact I.
Defined.
